(** * Frog sensor: the GPS fix cache and the sampling loop of [co2.py]

    A shallow embedding of [software/co2/co2.py]: the [GpsData] record, the
    [BaseGps] fix cache with its three subclasses ([GpsdGps], [I2CGps],
    [DummyGps]), the module-level settings and the body of the polling loop
    of [main], followed by the properties of the staleness policy.

    Conventions.
    - A Python [float] is a binary64 value, [PrimFloat.float].
    - A naive [datetime] is a count of microseconds, and so is a
      [timedelta]; subtraction and comparison are those of [Z].
    - Exceptions are values of [exn]; only instances of Python's [Exception]
      class are represented (what [except Exception] catches).
    - Python code that mutates objects and may raise is written in the monad
      [M St]: a state transformer that keeps the state reached when an
      exception is raised, and that collects the log records and sink writes
      produced on the way.
    - Calls into the hardware and client libraries (gpsd, adafruit_gps, the
      SCD30 and DPS310 drivers, the InfluxDB client, the clock) are answered
      by an explicit record of outcomes, one per call of [get_data]
      ([World]) and one per iteration of the loop ([Cycle]). *)

From Stdlib Require Import ZArith String List Bool Lia.
From Stdlib Require Import Floats.PrimFloat Floats.SpecFloat Floats.FloatOps.
From Stdlib Require Import DecimalString.
Import ListNotations.

Local Open Scope string_scope.
Local Open Scope list_scope.
Local Open Scope Z_scope.

(** ** Time *)

Definition datetime := Z.
Definition timedelta := Z.

(** [timedelta(seconds=s)] *)
Definition timedelta_of_seconds (s : Z) : timedelta := s * 1000000.

(** ** Exceptions, log records and sink writes *)

(** Values that reach a sink or a device register: Python [int], [float],
    [str] and [None]. *)
Inductive value : Type :=
| VInt (z : Z)
| VFloat (f : float)
| VStr (s : string)
| VNone.

Definition of_optional_float (o : option float) : value :=
  match o with
  | Some f => VFloat f
  | None => VNone
  end.

Definition of_optional_str (o : option string) : value :=
  match o with
  | Some s => VStr s
  | None => VNone
  end.

(** The text of an exception or of a log record.  Interpolated values are
    kept as arguments instead of being rendered. *)
Inductive message : Type :=
| Literal (s : string)
    (** a string literal *)
| Last_fix_is_too_old (age max_age : timedelta)
    (** [f"Last fix is too old ({age} > {GPS_FIX_MAX_AGE})"] *)
| Using_last_known_fix (age : timedelta)
    (** ["Failed to fetch GPS data, using last known fix (age: %s)" % age] *)
| Json (data : list (string * value)).
    (** [json.dumps(data)] *)

(** An instance of [Exception] or of one of its subclasses: the class name
    and the message, and [__cause__] when it was raised [from] another. *)
Inductive exn : Type :=
| Raised (cls : string) (msg : message)
| Raised_from (cls : string) (msg : message) (cause : exn).

(** [Exception(msg)] *)
Definition Exception (msg : message) : exn := Raised "Exception" msg.

(** [Exception(msg)] raised [from ex] *)
Definition Exception_from (msg : message) (ex : exn) : exn :=
  Raised_from "Exception" msg ex.

Inductive level : Type := INFO | WARNING | ERROR.

(** [Point] of the InfluxDB client, built by chained calls. *)
Record Point : Type := mkPoint {
  measurement : string;
  tags : list (string * value);
  fields : list (string * value);
  timestamp : option datetime
}.

Definition Point_ (name : string) : Point := mkPoint name [] [] None.

Definition tag (k : string) (v : value) (p : Point) : Point :=
  mkPoint (measurement p) (tags p ++ [(k, v)]) (fields p) (timestamp p).

Definition field (k : string) (v : value) (p : Point) : Point :=
  mkPoint (measurement p) (tags p) (fields p ++ [(k, v)]) (timestamp p).

Definition time (t : datetime) (p : Point) : Point :=
  mkPoint (measurement p) (tags p) (fields p) (Some t).

(** What the process does to the outside, in order. *)
Inductive event : Type :=
| Sleep (seconds : float)
    (** [time.sleep(seconds)] *)
| Log (lvl : level) (msg : message) (exc_info : option exn)
    (** a record handed to [logging]; [exc_info] is set by
        [logging.exception] *)
| Influx_write (bucket org : string) (record : Point).
    (** [write_api.write(bucket, org, record)] *)

(** ** The monad of stateful code that may raise *)

Inductive result (A : Type) : Type :=
| Ok (a : A)
| Err (e : exn).

Arguments Ok {A} a.
Arguments Err {A} e.

Section Monad.

Context {St : Type}.

(** A computation over a state [St]: its outcome, the state it leaves
    (also when it raises) and the events it produced. *)
Definition M (A : Type) : Type := St -> result A * St * list event.

Definition ret {A} (a : A) : M A := fun s => (Ok a, s, []).

Definition raise {A} (e : exn) : M A := fun s => (Err e, s, []).

Definition bind {A B} (m : M A) (k : A -> M B) : M B :=
  fun s =>
    match m s with
    | (Ok a, s1, out1) =>
        match k a s1 with
        | (r, s2, out2) => (r, s2, out1 ++ out2)
        end
    | (Err e, s1, out1) => (Err e, s1, out1)
    end.

(** [try: m  except Exception as ex: h ex] *)
Definition try_except {A} (m : M A) (h : exn -> M A) : M A :=
  fun s =>
    match m s with
    | (Ok a, s1, out1) => (Ok a, s1, out1)
    | (Err e, s1, out1) =>
        match h e s1 with
        | (r, s2, out2) => (r, s2, out1 ++ out2)
        end
    end.

(** [try: m  finally: f]: [f] runs whatever [m] did; the outcome is that
    of [m] unless [f] itself raises. *)
Definition try_finally {A} (m : M A) (f : M unit) : M A :=
  fun s =>
    match m s with
    | (r, s1, out1) =>
        match f s1 with
        | (Ok _, s2, out2) => (r, s2, out1 ++ out2)
        | (Err e, s2, out2) => (Err e, s2, out1 ++ out2)
        end
    end.

Definition gets {A} (f : St -> A) : M A := fun s => (Ok (f s), s, []).

Definition modify (f : St -> St) : M unit := fun s => (Ok tt, f s, []).

Definition emit (e : event) : M unit := fun s => (Ok tt, s, [e]).

(** The outcome of a call into a library, which leaves our state alone. *)
Definition call {A} (r : result A) : M A := fun s => (r, s, []).

End Monad.

Arguments M St A : clear implicits.

(** Run a method of a part [T] of the state [St]. *)
Definition within {St T A} (proj : St -> T) (upd : T -> St -> St)
    (m : M T A) : M St A :=
  fun s =>
    match m (proj s) with
    | (r, t, out) => (r, upd t s, out)
    end.

Declare Scope monad_scope.
Delimit Scope monad_scope with monad.
Notation "x <- m ;; k" := (bind m (fun x => k))
  (at level 61, m at next level, right associativity) : monad_scope.
Notation "m ;; k" := (bind m (fun _ => k))
  (at level 61, right associativity) : monad_scope.
Local Open Scope monad_scope.

Definition outcome {St A} (x : result A * St * list event) : result A :=
  fst (fst x).
Definition state_after {St A} (x : result A * St * list event) : St :=
  snd (fst x).
Definition events {St A} (x : result A * St * list event) : list event :=
  snd x.

(** ** Module-level settings *)

(** [os.environ] *)
Definition environ := string -> option string.

(** [os.getenv(key, default)] *)
Definition getenv (env : environ) (key default : string) : string :=
  match env key with
  | Some v => v
  | None => default
  end.

(** Python's [x in xs] on strings *)
Definition str_in (x : string) (xs : list string) : bool :=
  existsb (String.eqb x) xs.

Definition BUCKET : string := "co2".
Definition ORG : string := "keenan.johnson@gmail.com".

Definition ENABLE_INFLUXDB (env : environ) : bool :=
  str_in (getenv env "ENABLE_INFLUXDB" "true")
    ["true"; "True"; "1"; "yes"; "Yes"].

(** The settings read once when the module is loaded.  The numeric ones are
    held as converted by [int] and [float]. *)
Record Settings : Type := {
  os_environ : environ;
  POLL_INTERVAL_SECONDS : float;
  GPS_DIGITS_PRECISION : Z;
  GPS_FIX_MAX_AGE_SECONDS : Z
}.

Definition DEVICE_UUID (cfg : Settings) : option string :=
  os_environ cfg "BALENA_DEVICE_UUID".

Definition GPS_FIX_MAX_AGE (cfg : Settings) : timedelta :=
  timedelta_of_seconds (GPS_FIX_MAX_AGE_SECONDS cfg).

(** ** GpsData and the outcomes of the library calls *)

Record GpsData : Type := mkGpsData {
  latitude : float;
  longitude : float;
  altitude : option float;
  acquired_at : datetime
}.

(** A packet returned by [gpsd.get_current()]: what its two accessors
    return or raise. *)
Record Packet : Type := {
  position : result (float * float);
  packet_altitude : result float
}.

(** Outcomes of the library calls made during one call of [get_data]. *)
Record World : Type := {
  now : datetime;                       (* datetime.now() *)
  gpsd_connect : result unit;           (* gpsd.connect() *)
  gpsd_get_current : result Packet;     (* gpsd.get_current() *)
  gps_update : result unit;             (* self._gps.update() *)
  gps_has_fix : bool;                   (* self._gps.has_fix *)
  gps_latitude : float;                 (* self._gps.latitude *)
  gps_longitude : float;                (* self._gps.longitude *)
  gps_altitude_m : option float         (* self._gps.altitude_m *)
}.

(** ** BaseGps *)

(** The abstract method [_get_data], over the fields [S] of a subclass.  No
    implementation logs or writes to a sink: whatever [_get_data] does shows
    in its outcome and in the fields of the object. *)
Class Gps (S : Type) : Type := {
  _get_data : Settings -> World -> M S GpsData;
  _get_data_silent : forall cfg w self, events (_get_data cfg w self) = []
}.

(** An instance of a subclass of [BaseGps]: the field of the base class and
    the fields of the subclass. *)
Record BaseGps (S : Type) : Type := mkBaseGps {
  _last_fix : option GpsData;
  own : S
}.

Arguments mkBaseGps {S} _ _.
Arguments _last_fix {S} _.
Arguments own {S} _.

(** [BaseGps.__init__] *)
Definition BaseGps_init {S} (fields_of_subclass : S) : BaseGps S :=
  mkBaseGps None fields_of_subclass.

Definition set_last_fix {S} (f : GpsData) : M (BaseGps S) unit :=
  modify (fun self => mkBaseGps (Some f) (own self)).

Definition on_own {S A} (m : M S A) : M (BaseGps S) A :=
  within own (fun t self => mkBaseGps (_last_fix self) t) m.

Definition get_data {S} `{Gps S} (cfg : Settings) (w : World)
    : M (BaseGps S) GpsData :=
  try_except
    (fix_ <- on_own (_get_data cfg w) ;;
     set_last_fix fix_)
    (fun ex =>
       last <- gets _last_fix ;;
       match last with
       | Some last_fix =>
           let age := now w - acquired_at last_fix in
           if age <? GPS_FIX_MAX_AGE cfg then
             emit (Log WARNING (Using_last_known_fix age) None)
           else
             raise (Exception_from
                      (Last_fix_is_too_old age (GPS_FIX_MAX_AGE cfg)) ex)
       | None => ret tt
       end) ;;
  last <- gets _last_fix ;;
  match last with
  | None => raise (Exception (Literal "Waiting for first fix"))
  | Some last_fix => ret last_fix
  end.

(** ** The subclasses of BaseGps *)

(** Python's built-in [round(number, ndigits)] on floats. *)
Class Builtin_round : Type :=
  round : float -> Z -> float.

(** Read GPS data from the GPSD daemon *)
Module GpsdGps.

Record t : Type := mk { _is_valid : bool }.

(** [__init__], after [super().__init__()] *)
Definition init : t := mk false.

Definition set_is_valid (b : bool) : M t unit := modify (fun _ => mk b).

Definition _connect (w : World) : M t unit :=
  try_finally
    (try_except
       (call (gpsd_connect w))
       (fun ex => set_is_valid false ;; raise ex))
    (set_is_valid true).

Definition _get_data `{Builtin_round} (cfg : Settings) (w : World)
    : M t GpsData :=
  is_valid <- gets _is_valid ;;
  (if negb is_valid then _connect w else ret tt) ;;
  try_except
    (packet <- call (gpsd_get_current w) ;;
     lat <- call (position packet) ;;
     lon <- call (position packet) ;;
     alt <- call (packet_altitude packet) ;;
     ret (mkGpsData (round (fst lat) (GPS_DIGITS_PRECISION cfg))
                    (round (snd lon) (GPS_DIGITS_PRECISION cfg))
                    (Some alt)
                    (now w)))
    (fun ex => set_is_valid false ;; raise ex).

Lemma gpsd_silent `{Builtin_round} (cfg : Settings) (w : World) (self : t) :
  events (_get_data cfg w self) = [].
Proof.
  destruct self as [valid].
  unfold _get_data, _connect, set_is_valid, events, bind, try_except,
    try_finally, gets, modify, call, raise, ret; simpl.
  destruct valid; simpl.
  - destruct (gpsd_get_current w) as [packet|ex]; simpl; [|reflexivity].
    destruct (position packet) as [xy|ex]; simpl; [|reflexivity].
    destruct (packet_altitude packet) as [alt|ex]; reflexivity.
  - destruct (gpsd_connect w) as [[]|ex]; simpl; [|reflexivity].
    destruct (gpsd_get_current w) as [packet|ex]; simpl; [|reflexivity].
    destruct (position packet) as [xy|ex]; simpl; [|reflexivity].
    destruct (packet_altitude packet) as [alt|ex]; reflexivity.
Qed.

#[global] Instance gps `{Builtin_round} : Gps t :=
  Build_Gps t _get_data gpsd_silent.

End GpsdGps.

(** Read GPS data from I2C via the Adafruit GPS library *)
Module I2CGps.

(** The object keeps the bus and the driver handle, which the model
    reaches through [World]; it has no field of its own that changes. *)
Record t : Type := mk { }.

Definition init : t := mk.

Definition _get_data `{Builtin_round} (cfg : Settings) (w : World)
    : M t GpsData :=
  call (gps_update w) ;;
  if negb (gps_has_fix w) then
    raise (Exception (Literal "No GPS Fix"))
  else
    ret (mkGpsData (round (gps_latitude w) (GPS_DIGITS_PRECISION cfg))
                   (round (gps_longitude w) (GPS_DIGITS_PRECISION cfg))
                   (gps_altitude_m w)
                   (now w)).

Lemma i2c_silent `{Builtin_round} (cfg : Settings) (w : World) (self : t) :
  events (_get_data cfg w self) = [].
Proof.
  unfold _get_data, events, bind, call, raise, ret.
  destruct (gps_update w) as [[]|ex]; simpl; [|reflexivity].
  destruct (gps_has_fix w); reflexivity.
Qed.

#[global] Instance gps `{Builtin_round} : Gps t :=
  Build_Gps t _get_data i2c_silent.

End I2CGps.

(** Always return a static fix. Useful for testing without a GPS. *)
Module DummyGps.

Record t : Type := mk {
  _latitude : float;
  _longitude : float;
  _altitude : float
}.

(** [__init__], given the three settings as converted by [float]. *)
Definition init (lat lon alt : float) : t := mk lat lon alt.

Definition _get_data (cfg : Settings) (w : World) : M t GpsData :=
  self <- gets (fun self => self) ;;
  ret (mkGpsData (_latitude self) (_longitude self) (Some (_altitude self))
                 (now w)).

Lemma dummy_silent (cfg : Settings) (w : World) (self : t) :
  events (_get_data cfg w self) = [].
Proof. reflexivity. Qed.

#[global] Instance gps : Gps t :=
  Build_Gps t _get_data dummy_silent.

End DummyGps.

(** ** The polling loop of main *)

(** The settings of the SCD30 that [main] assigns through its driver, as
    the sensor holds them. *)
Record SCD30 : Type := mkSCD30 {
  ambient_pressure : value;
  temperature_offset : value;
  scd_altitude : value;
  self_calibration_enabled : bool
}.

(** The attributes as [main] leaves them before it enters the loop. *)
Definition scd_before_loop : SCD30 :=
  mkSCD30 (VInt 1007) (VFloat 4.0) (VInt 0) true.

(** What the reads of lines 288-298 answer, each read on its own: the
    attribute of the driver object is read when its field of the point is
    built. *)
Record PointReads : Type := {
  point_co2 : result float;                  (* scd.CO2 *)
  point_temperature : result float;          (* scd.temperature *)
  point_humidity : result float;             (* scd.relative_humidity *)
  point_baro_pressure : result float;        (* dps310.pressure *)
  point_baro_temperature : result float;     (* dps310.temperature *)
  point_scd30_pressure_mbar : result value;  (* scd.ambient_pressure *)
  point_scd30_altitude_m : result value      (* scd.altitude *)
}.

(** What the reads of lines 305-315 answer, each read on its own. *)
Record DataReads : Type := {
  data_CO2 : result float;                   (* scd.CO2 *)
  data_Temperature : result float;           (* scd.temperature *)
  data_Relative_Humidity : result float;     (* scd.relative_humidity *)
  data_scd_temp_offset : result value;       (* scd.temperature_offset *)
  data_baro_temp : result float;             (* dps310.temperature *)
  data_baro_pressure_hpa : result float;     (* dps310.pressure *)
  data_scd30_pressure_mbar : result value;   (* scd.ambient_pressure *)
  data_scd30_alt_m : result value            (* scd.altitude *)
}.

(** What the sensors, the clock and the InfluxDB client answer during one
    iteration of the loop that has got past its sleep.  Every access of a
    driver attribute after [scd.data_available] is a read of its own, which
    returns a value or raises; the assignment to [scd.ambient_pressure] is
    a call of the driver's setter, which raises or leaves a value in the
    sensor. *)
Record Cycle : Type := {
  data_available : bool;            (* scd.data_available *)
  world : World;                    (* the library calls under gps.get_data() *)
  pressure_tested : result float;   (* dps310.pressure, line 280 *)
  pressure_assigned : result float; (* dps310.pressure, line 281 *)
  scd_ambient_pressure_setter : float -> result value;
                                    (* scd.ambient_pressure = v, line 281:
                                       what the sensor then holds *)
  point_reads : PointReads;         (* lines 288-298 *)
  utcnow : datetime;                (* datetime.utcnow() *)
  write_api_write : result unit;    (* write_api.write(...) *)
  data_reads : DataReads            (* lines 305-315 *)
}.

(** The objects that live across iterations. *)
Record Process (S : Type) : Type := mkProcess {
  gps : BaseGps S;
  scd : SCD30
}.

Arguments mkProcess {S} _ _.
Arguments gps {S} _.
Arguments scd {S} _.

Definition on_gps {S A} (m : M (BaseGps S) A) : M (Process S) A :=
  within gps (fun g p => mkProcess g (scd p)) m.

(** The SCD30 settings once the sensor holds [v] as ambient pressure. *)
Definition with_ambient_pressure (v : value) (sc : SCD30) : SCD30 :=
  mkSCD30 v (temperature_offset sc) (scd_altitude sc)
          (self_calibration_enabled sc).

(** [scd.ambient_pressure = v]: the setter of the driver is called with
    [v]; when it returns, the sensor holds what the driver made of [v]. *)
Definition set_ambient_pressure {S} (c : Cycle) (v : float)
    : M (Process S) unit :=
  held <- call (scd_ambient_pressure_setter c v) ;;
  modify (fun p => mkProcess (gps p) (with_ambient_pressure held (scd p))).

Notation "p '.>' f" := (f p) (at level 45, left associativity, only parsing).

(** Sequencing of reads that may raise. *)
Definition and_then {A B} (r : result A) (k : A -> result B) : result B :=
  match r with
  | Ok a => k a
  | Err ex => Err ex
  end.

Notation "x <~ r ;; k" := (and_then r (fun x => k))
  (at level 61, r at next level, right associativity) : monad_scope.

(** The point of lines 285-299, or the exception of the first read that
    raises. *)
Definition ghg_point (cfg : Settings) (c : Cycle) (gps_data : GpsData)
    : result Point :=
  co2 <~ point_co2 (point_reads c) ;;
  temperature <~ point_temperature (point_reads c) ;;
  humidity <~ point_humidity (point_reads c) ;;
  baro_pressure <~ point_baro_pressure (point_reads c) ;;
  baro_temperature <~ point_baro_temperature (point_reads c) ;;
  scd30_pressure_mbar <~ point_scd30_pressure_mbar (point_reads c) ;;
  scd30_altitude_m <~ point_scd30_altitude_m (point_reads c) ;;
  Ok (Point_ "ghg_point"
        .> tag "host" (of_optional_str (DEVICE_UUID cfg))
        .> field "co2" (VFloat co2)
        .> time (utcnow c)
        .> field "temperature" (VFloat temperature)
        .> field "humidity" (VFloat humidity)
        .> field "lat" (VFloat (latitude gps_data))
        .> field "lon" (VFloat (longitude gps_data))
        .> field "alt" (of_optional_float (altitude gps_data))
        .> field "baro_pressure" (VFloat baro_pressure)
        .> field "baro_temperature" (VFloat baro_temperature)
        .> field "scd30_pressure_mbar" scd30_pressure_mbar
        .> field "scd30_altitude_m" scd30_altitude_m).

(** The dict of lines 304-315, or the exception of the first read that
    raises. *)
Definition mqtt_data (c : Cycle) (gps_data : GpsData)
    : result (list (string * value)) :=
  co2 <~ data_CO2 (data_reads c) ;;
  temperature <~ data_Temperature (data_reads c) ;;
  humidity <~ data_Relative_Humidity (data_reads c) ;;
  temp_offset <~ data_scd_temp_offset (data_reads c) ;;
  baro_temp <~ data_baro_temp (data_reads c) ;;
  baro_pressure <~ data_baro_pressure_hpa (data_reads c) ;;
  scd30_pressure_mbar <~ data_scd30_pressure_mbar (data_reads c) ;;
  scd30_alt_m <~ data_scd30_alt_m (data_reads c) ;;
  Ok [ ("CO2", VFloat co2);
       ("Temperature", VFloat temperature);
       ("Relative_Humidity", VFloat humidity);
       ("Latitude", VFloat (latitude gps_data));
       ("Longitude", VFloat (longitude gps_data));
       ("Altitude", of_optional_float (altitude gps_data));
       ("scd_temp_offset", temp_offset);
       ("baro_temp", VFloat baro_temp);
       ("baro_pressure_hpa", VFloat baro_pressure);
       ("scd30_pressure_mbar", scd30_pressure_mbar);
       ("scd30_alt_m", scd30_alt_m) ].

(** One pass through the body of [while True]. *)
Definition iteration {S} `{Gps S} (cfg : Settings) (c : Cycle)
    : M (Process S) unit :=
  emit (Sleep (POLL_INTERVAL_SECONDS cfg)) ;;
  if negb (data_available c) then
    ret tt                                    (* continue *)
  else
    got <- try_except
             (gps_data <- on_gps (get_data cfg (world c)) ;;
              ret (Some gps_data))
             (fun ex =>
                emit (Log ERROR (Literal "Error getting current GPS position")
                          (Some ex)) ;;
                ret None) ;;
    match got with
    | None => ret tt                          (* continue *)
    | Some gps_data =>
        tested <- call (pressure_tested c) ;;
        (if (0 <? tested)%float then
           assigned <- call (pressure_assigned c) ;;
           set_ambient_pressure c assigned
         else ret tt) ;;
        (if ENABLE_INFLUXDB (os_environ cfg) then
           point <- call (ghg_point cfg c gps_data) ;;
           emit (Influx_write BUCKET ORG point) ;;
           call (write_api_write c)
         else ret tt) ;;
        data <- call (mqtt_data c gps_data) ;;
        emit (Log INFO (Json data) None)
    end.

(** The loop, run over the answers of finitely many iterations: it goes on
    to the next iteration unless an exception leaves the body. *)
Fixpoint main_loop {S} `{Gps S} (cfg : Settings) (cycles : list Cycle)
    : M (Process S) unit :=
  match cycles with
  | [] => ret tt
  | c :: rest => iteration cfg c ;; main_loop cfg rest
  end.

(** An event that hands a fused record to a sink: a write to InfluxDB or
    the JSON line for the local broker. *)
Definition is_sink_event (e : event) : bool :=
  match e with
  | Influx_write _ _ _ => true
  | Log _ (Json _) _ => true
  | _ => false
  end.

(** Successive calls of [get_data] on one object, each with the answers of
    its own moment: the outcome and the events of every call, and the
    object as the last call leaves it. *)
Fixpoint successive_calls {S} `{Gps S} (cfg : Settings) (ws : list World)
    (self : BaseGps S) : list (result GpsData * list event) * BaseGps S :=
  match ws with
  | [] => ([], self)
  | w :: rest =>
      let r := get_data cfg w self in
      let '(rs, final) := successive_calls cfg rest (state_after r) in
      ((outcome r, events r) :: rs, final)
  end.

(** [_get_data] raises at each of the successive calls [ws], started from
    the subclass fields [s]. *)
Fixpoint acquisition_fails_throughout {S} `{Gps S} (cfg : Settings)
    (ws : list World) (s : S) : bool :=
  match ws with
  | [] => true
  | w :: rest =>
      match outcome (_get_data cfg w s) with
      | Ok _ => false
      | Err _ => 
          acquisition_fails_throughout cfg rest
            (state_after (_get_data cfg w s))
      end
  end.

(** The age of the fix [f] at the moment [w] stays under the maximum. *)
Definition still_fresh (cfg : Settings) (f : GpsData) (w : World) : bool :=
  now w - acquired_at f <? GPS_FIX_MAX_AGE cfg.

(** Whether an outcome is a return. *)
Definition returns {A} (r : result A) : bool :=
  match r with
  | Ok _ => true
  | Err _ => false
  end.

(** ** Concrete settings and answers, used to run the properties *)

#[local] Set Warnings "-inexact-float".

(** A [round] that leaves its argument alone, as Python's does on a value
    that has no more decimals than asked for. *)
Definition round_of_short_decimal : Builtin_round := fun x _ => x.

(** Defaults of the module, nothing set in the environment. *)
Definition default_settings : Settings :=
  {| os_environ := fun _ => None;
     POLL_INTERVAL_SECONDS := 0.5;
     GPS_DIGITS_PRECISION := 2;
     GPS_FIX_MAX_AGE_SECONDS := 600 |}.

(** The GPS module on the bus holds no fix at second [t]. *)
Definition no_fix_at (t : Z) : World :=
  {| now := timedelta_of_seconds t;
     gpsd_connect := Ok tt;
     gpsd_get_current := Err (Raised "Exception" (Literal "no packet"));
     gps_update := Ok tt;
     gps_has_fix := false;
     gps_latitude := 0;
     gps_longitude := 0;
     gps_altitude_m := None |}.

(** The GPS module on the bus holds a fix at second [t]. *)
Definition fix_at (t : Z) (lat lon alt : float) : World :=
  {| now := timedelta_of_seconds t;
     gpsd_connect := Ok tt;
     gpsd_get_current :=
       Ok {| position := Ok (lat, lon); packet_altitude := Ok alt |};
     gps_update := Ok tt;
     gps_has_fix := true;
     gps_latitude := lat;
     gps_longitude := lon;
     gps_altitude_m := Some alt |}.

(** The daemon refuses the connection at second [t]. *)
Definition daemon_down_at (t : Z) : World :=
  {| now := timedelta_of_seconds t;
     gpsd_connect :=
       Err (Raised "ConnectionRefusedError" (Literal "Connection refused"));
     gpsd_get_current :=
       Err (Raised "Exception" (Literal "not connected"));
     gps_update := Ok tt;
     gps_has_fix := false;
     gps_latitude := 0;
     gps_longitude := 0;
     gps_altitude_m := None |}.

(** The fix taken at second 0 in the scenario of the staleness policy. *)
Definition fix0 : GpsData :=
  mkGpsData 37.42 (-122.08) (Some 30.0%float) 0.

Definition i2c_cache (last : option GpsData) : BaseGps I2CGps.t :=
  mkBaseGps last I2CGps.init.

(** The environment in which only [ENABLE_INFLUXDB] is set, to [v]. *)
Definition only_enable_influxdb (v : string) : environ :=
  fun key => if String.eqb key "ENABLE_INFLUXDB" then Some v else None.

(** [int(x)] of a float: the truncation toward zero; none for an infinity
    or a NaN, where Python raises. *)
Definition int_of_float (x : float) : option Z :=
  match Prim2SF x with
  | S754_zero _ => Some 0
  | S754_finite negative m e =>
      let magnitude :=
        if 0 <=? e then Z.pos m * 2 ^ e else Z.pos m / 2 ^ (- e) in
      Some (if negative then - magnitude else magnitude)
  | S754_infinity _ => None
  | S754_nan => None
  end.

(** The answer of the setter of [ambient_pressure] in the adafruit_scd30
    driver: it takes [int] of the value, refuses one that is neither 0 nor
    within 700..1400 mbar, and otherwise sends it to the sensor. *)
Definition adafruit_scd30_setter (v : float) : result value :=
  match int_of_float v with
  | None =>
      Err (Raised "ValueError"
             (Literal "cannot convert float NaN or infinity to integer"))
  | Some mbar =>
      if negb (mbar =? 0) && ((1400 <? mbar) || (mbar <? 700)) then
        Err (Raised "AttributeError"
               (Literal "ambient_pressure must be from 700 to 1400 mBar"))
      else Ok (VInt mbar)
  end.

(** What the sensor holds after an iteration whose barometer reads [p]
    throughout, when it held 1007 before. *)
Definition held_after (p : float) : value :=
  if (0 <? p)%float then
    match adafruit_scd30_setter p with
    | Ok v => v
    | Err _ => VInt 1007
    end
  else VInt 1007.

(** An iteration at second [t] in which every sensor answers, with the
    same values at every read; the barometer reads [p]. *)
Definition steady_cycle (w : World) (t : Z) (ready : bool) (p : float)
    (write : result unit) : Cycle :=
  {| data_available := ready;
     world := w;
     pressure_tested := Ok p;
     pressure_assigned := Ok p;
     scd_ambient_pressure_setter := adafruit_scd30_setter;
     point_reads :=
       {| point_co2 := Ok 415.5%float;
          point_temperature := Ok 21.5%float;
          point_humidity := Ok 40%float;
          point_baro_pressure := Ok p;
          point_baro_temperature := Ok 22%float;
          point_scd30_pressure_mbar := Ok (held_after p);
          point_scd30_altitude_m := Ok (VInt 0) |};
     utcnow := timedelta_of_seconds t;
     write_api_write := write;
     data_reads :=
       {| data_CO2 := Ok 415.5%float;
          data_Temperature := Ok 21.5%float;
          data_Relative_Humidity := Ok 40%float;
          data_scd_temp_offset := Ok (VFloat 4.0);
          data_baro_temp := Ok 22%float;
          data_baro_pressure_hpa := Ok p;
          data_scd30_pressure_mbar := Ok (held_after p);
          data_scd30_alt_m := Ok (VInt 0) |} |}.

(** An iteration in which the SCD30 has data, the daemon is down and the
    barometer reads [p]. *)
Definition cycle_daemon_down (t : Z) (p : float) : Cycle :=
  steady_cycle (daemon_down_at t) t true p (Ok tt).

Definition process_before_loop {S} (fields_of_subclass : S) : Process S :=
  mkProcess (BaseGps_init fields_of_subclass) scd_before_loop.

(** An iteration at second [t] in which the SCD30 has data or not, and the
    barometer reads [p]. *)
Definition cycle_at (t : Z) (ready : bool) (p : float) : Cycle :=
  steady_cycle (no_fix_at t) t ready p (Ok tt).

(** The same with data, and with InfluxDB out of service. *)
Definition cycle_influx_down (t : Z) (p : float) : Cycle :=
  steady_cycle (no_fix_at t) t true p
    (Err (Raised "ApiException" (Literal "503 Service Unavailable"))).

Definition dummy_process : Process DummyGps.t :=
  process_before_loop (DummyGps.init 37.42 (-122.08) 30).

(** ** The device-type tables and the two selectors *)

(** Python's built-in [int(s)] on a string: the number, or [ValueError]. *)
Class Builtin_int : Type :=
  int_of_str : string -> result Z.

(** Python's built-in [repr(s)] on a string. *)
Class Builtin_repr : Type :=
  repr : string -> string.

(** [str(n)] of an [int] *)
Definition str_of_int (n : Z) : string :=
  NilZero.string_of_int (Z.to_int n).

(** [str(x)] of an [Optional[str]] *)
Definition str_of_optional (x : option string) : string :=
  match x with
  | Some s => s
  | None => "None"
  end.

Definition RESIN_DEVICE_TYPE (cfg : Settings) : option string :=
  os_environ cfg "RESIN_DEVICE_TYPE".

Definition optional_str_eqb (a b : option string) : bool :=
  match a, b with
  | Some x, Some y => String.eqb x y
  | None, None => true
  | _, _ => false
  end.

(** [d.get(key, default)] on a mapping keyed by [Optional[str]], held as
    its items. *)
Fixpoint dict_get {V} (d : list (option string * V)) (key : option string)
    (default : V) : V :=
  match d with
  | [] => default
  | (k, v) :: rest =>
      if optional_str_eqb k key then v else dict_get rest key default
  end.

Definition DEFAULT_I2C_BUS_ID : Z := 11.

Definition I2C_BUS_ID_MAP : list (option string * Z) :=
  [ (Some "beaglebone-green-gateway", 2) ].

Inductive GpsSourceType : Type := DUMMY | GPSD | I2C.

(** The value of a member *)
Definition GpsSourceType_value (m : GpsSourceType) : string :=
  match m with
  | DUMMY => "dummy"
  | GPSD => "gpsd"
  | I2C => "i2c"
  end.

(** [str(member)] *)
Definition str_of_GpsSourceType (m : GpsSourceType) : string :=
  match m with
  | DUMMY => "GpsSourceType.DUMMY"
  | GPSD => "GpsSourceType.GPSD"
  | I2C => "GpsSourceType.I2C"
  end.

(** [GpsSourceType(value)]: the member with that value, or [ValueError]. *)
Definition GpsSourceType_of_value `{Builtin_repr} (v : string)
    : result GpsSourceType :=
  if String.eqb v "dummy" then Ok DUMMY
  else if String.eqb v "gpsd" then Ok GPSD
  else if String.eqb v "i2c" then Ok I2C
  else Err (Raised "ValueError"
              (Literal (repr v ++ " is not a valid GpsSourceType")%string)).

Definition DEFAULT_GPS_SOURCE : GpsSourceType := GPSD.

Definition GPS_SOURCE_MAP : list (option string * GpsSourceType) :=
  [ (Some "beaglebone-green-gateway", I2C);
    (Some "raspberrypicm4-ioboard", I2C) ].

Definition logging_info {St} (text : string) : M St unit :=
  emit (Log INFO (Literal text) None).

Definition get_i2c_bus_id `{Builtin_int} (cfg : Settings) : M unit Z :=
  match os_environ cfg "I2C_BUS_ID" with
  | Some override =>
      logging_info ("Using I2C bus override: " ++ override)%string ;;
      call (int_of_str override)
  | None =>
      let retval :=
        dict_get I2C_BUS_ID_MAP (RESIN_DEVICE_TYPE cfg) DEFAULT_I2C_BUS_ID in
      logging_info ("I2C bus for device type "
                    ++ str_of_optional (RESIN_DEVICE_TYPE cfg)
                    ++ ": " ++ str_of_int retval)%string ;;
      ret retval
  end.

Definition get_gps_source `{Builtin_repr} (cfg : Settings)
    : M unit GpsSourceType :=
  match os_environ cfg "GPS_SOURCE" with
  | Some override =>
      logging_info ("Using GPS source override: " ++ override)%string ;;
      call (GpsSourceType_of_value override)
  | None =>
      let retval :=
        dict_get GPS_SOURCE_MAP (RESIN_DEVICE_TYPE cfg) DEFAULT_GPS_SOURCE in
      logging_info ("GPS source for device type "
                    ++ str_of_optional (RESIN_DEVICE_TYPE cfg)
                    ++ ": " ++ str_of_GpsSourceType retval)%string ;;
      ret retval
  end.

(** The environment that sets the listed variables and no other. *)
Fixpoint environ_of (items : list (string * string)) : environ :=
  fun key =>
    match items with
    | [] => None
    | (k, v) :: rest =>
        if String.eqb key k then Some v else environ_of rest key
    end.

Definition settings_with (items : list (string * string)) : Settings :=
  {| os_environ := environ_of items;
     POLL_INTERVAL_SECONDS := 0.5;
     GPS_DIGITS_PRECISION := 2;
     GPS_FIX_MAX_AGE_SECONDS := 600 |}.

(** [repr] on a string that has no quote, backslash or control character:
    the string between single quotes. *)
Definition repr_of_plain_str : Builtin_repr :=
  fun s => ("'" ++ s ++ "'")%string.

(** An event is a call of [time.sleep]. *)
Definition is_sleep (e : event) : bool :=
  match e with
  | Sleep _ => true
  | _ => false
  end.

(** An event is a write to InfluxDB. *)
Definition is_influx_write (e : event) : bool :=
  match e with
  | Influx_write _ _ _ => true
  | _ => false
  end.

(** An event is the JSON line for the local broker. *)
Definition is_json_line (e : event) : bool :=
  match e with
  | Log _ (Json _) _ => true
  | _ => false
  end.

(** The value stored under [key] in the items of a dict or of the fields of
    a point. *)
Fixpoint item (key : string) (items : list (string * value)) : option value :=
  match items with
  | [] => None
  | (k, v) :: rest => if String.eqb k key then Some v else item key rest
  end.

(** Lines 280-281 on the settings [sc]: the settings they leave, or the
    exception of the read or of the setter that raises. *)
Definition calibrated (c : Cycle) (sc : SCD30) : result SCD30 :=
  tested <~ pressure_tested c ;;
  if (0 <? tested)%float then
    assigned <~ pressure_assigned c ;;
    held <~ scd_ambient_pressure_setter c assigned ;;
    Ok (with_ambient_pressure held sc)
  else Ok sc.

(** [int] on a string of decimal digits; any other string is refused here. *)
Fixpoint digits_value (s : string) (acc : Z) : option Z :=
  match s with
  | EmptyString => Some acc
  | String ch rest =>
      let d := Z.of_nat (Ascii.nat_of_ascii ch) - 48 in
      if (0 <=? d) && (d <=? 9) then digits_value rest (10 * acc + d)
      else None
  end.

Definition int_of_digits : Builtin_int :=
  fun s =>
    match s, digits_value s 0 with
    | String _ _, Some n => Ok n
    | _, _ =>
        Err (Raised "ValueError"
               (Literal ("invalid literal for int() with base 10: '"
                         ++ s ++ "'")%string))
    end.

(** * Properties *)

(** ** The equation of get_data *)

Section Get_data.

Context {S : Type} `{Gps S}.
Variable cfg : Settings.

(** [get_data], by the outcome of [_get_data] and the stored fix. *)
Lemma get_data_eq (w : World) (self : BaseGps S) :
  get_data cfg w self =
  match outcome (_get_data cfg w (own self)) with
  | Ok fix_ =>
      (Ok fix_,
       mkBaseGps (Some fix_) (state_after (_get_data cfg w (own self))),
       [])
  | Err ex =>
      let self' :=
        mkBaseGps (_last_fix self) (state_after (_get_data cfg w (own self)))
      in
      match _last_fix self with
      | None => (Err (Exception (Literal "Waiting for first fix")), self', [])
      | Some last_fix =>
          let age := now w - acquired_at last_fix in
          if age <? GPS_FIX_MAX_AGE cfg then
            (Ok last_fix, self', [Log WARNING (Using_last_known_fix age) None])
          else
            (Err (Exception_from
                    (Last_fix_is_too_old age (GPS_FIX_MAX_AGE cfg)) ex),
             self', [])
      end
  end.
Proof.
  pose proof (_get_data_silent cfg w (own self)) as quiet.
  unfold get_data, on_own, within, set_last_fix, bind, try_except, gets,
    modify, emit, raise, ret, outcome, state_after, events in *.
  destruct (_get_data cfg w (own self)) as [[r s'] out]; simpl in *.
  subst out. destruct self as [last s]; simpl.
  destruct r as [fix_|ex]; simpl; [reflexivity|].
  destruct last as [last_fix|]; simpl; [|reflexivity].
  destruct (now w - acquired_at last_fix <? GPS_FIX_MAX_AGE cfg);
    reflexivity.
Qed.

Lemma get_data_ok (w : World) (self : BaseGps S) (fix_ : GpsData) :
  outcome (_get_data cfg w (own self)) = Ok fix_ ->
  get_data cfg w self =
  (Ok fix_, mkBaseGps (Some fix_) (state_after (_get_data cfg w (own self))),
   []).
Proof. intros Hok. rewrite get_data_eq, Hok. reflexivity. Qed.

Lemma get_data_stale (w : World) (self : BaseGps S) (ex : exn)
    (last_fix : GpsData) :
  outcome (_get_data cfg w (own self)) = Err ex ->
  _last_fix self = Some last_fix ->
  still_fresh cfg last_fix w = true ->
  get_data cfg w self =
  (Ok last_fix,
   mkBaseGps (Some last_fix) (state_after (_get_data cfg w (own self))),
   [Log WARNING (Using_last_known_fix (now w - acquired_at last_fix)) None]).
Proof.
  intros Herr Hlast Hage. unfold still_fresh in Hage.
  rewrite get_data_eq, Herr, Hlast. simpl. rewrite Hage. reflexivity.
Qed.

End Get_data.

(** ** The staleness policy of get_data *)

(** C1. When [_get_data] raises and the stored fix [F] is younger than
    [GPS_FIX_MAX_AGE], [get_data] logs one warning and returns [F] itself,
    all four fields as stored, and leaves [F] as the stored fix.  Over
    successive failing calls whose moments all keep the age of [F] under
    the maximum, every call returns [F] with its warning and [F] is still
    the stored fix after the last one. *)
Theorem stale_fix_returned_while_fresh {S} `{Gps S} (cfg : Settings)
    (ws : list World) (self : BaseGps S) (F : GpsData) :
  _last_fix self = Some F ->
  acquisition_fails_throughout cfg ws (own self) = true ->
  Forall (fun w => now w - acquired_at F < GPS_FIX_MAX_AGE cfg) ws ->
  fst (successive_calls cfg ws self) =
    map (fun w =>
           (Ok F,
            [Log WARNING (Using_last_known_fix (now w - acquired_at F)) None]))
        ws
  /\ _last_fix (snd (successive_calls cfg ws self)) = Some F.
Proof.
  revert self.
  induction ws as [|w rest IH]; intros self Hlast Hfail Hfresh.
  - simpl. auto.
  - simpl in Hfail.
    destruct (outcome (_get_data cfg w (own self))) as [fix_|ex] eqn:Hacq;
      [discriminate|].
    inversion Hfresh as [|w' rest' Hw Hrest]; subst.
    assert (Hcall := get_data_stale cfg w self ex F Hacq Hlast).
    unfold still_fresh in Hcall.
    rewrite (proj2 (Z.ltb_lt _ _) Hw) in Hcall.
    specialize (Hcall eq_refl).
    simpl. rewrite Hcall. unfold state_after, outcome, events; simpl.
    specialize (IH (mkBaseGps (Some F)
                      (snd (fst (_get_data cfg w (own self)))))
                   eq_refl Hfail Hrest).
    destruct (successive_calls cfg rest _) as [rs final]; simpl in *.
    destruct IH as [IHcalls IHlast].
    rewrite IHcalls. auto.
Qed.

Lemma stale_fix_returned_while_fresh_witness :
  fst (successive_calls (H := @I2CGps.gps round_of_short_decimal)
         default_settings [no_fix_at 300; no_fix_at 599]
         (i2c_cache (Some fix0))) =
    [ (Ok fix0, [Log WARNING (Using_last_known_fix 300000000) None]);
      (Ok fix0, [Log WARNING (Using_last_known_fix 599000000) None]) ]
  /\ _last_fix (snd (successive_calls
                       (H := @I2CGps.gps round_of_short_decimal)
                       default_settings [no_fix_at 300; no_fix_at 599]
                       (i2c_cache (Some fix0)))) = Some fix0.
Proof.
  apply (stale_fix_returned_while_fresh (H := @I2CGps.gps round_of_short_decimal)
           default_settings [no_fix_at 300; no_fix_at 599]
           (i2c_cache (Some fix0)) fix0).
  - reflexivity.
  - reflexivity.
  - repeat constructor.
Defined.

(** C2. When [_get_data] raises and the stored fix is as old as
    [GPS_FIX_MAX_AGE] or older, [get_data] raises the exception "Last fix
    is too old", which carries the age and the maximum and has the failure
    of [_get_data] as its cause; it returns no fix and logs no warning. *)
Theorem old_fix_raises {S} `{Gps S} (cfg : Settings) (w : World)
    (self : BaseGps S) (ex : exn) (F : GpsData) :
  outcome (_get_data cfg w (own self)) = Err ex ->
  _last_fix self = Some F ->
  GPS_FIX_MAX_AGE cfg <= now w - acquired_at F ->
  outcome (get_data cfg w self) =
    Err (Exception_from
           (Last_fix_is_too_old (now w - acquired_at F) (GPS_FIX_MAX_AGE cfg))
           ex)
  /\ events (get_data cfg w self) = [].
Proof.
  intros Hacq Hlast Hage.
  rewrite get_data_eq, Hacq, Hlast. simpl.
  rewrite (proj2 (Z.ltb_ge _ _) Hage). auto.
Qed.

Lemma old_fix_raises_witness :
  outcome (get_data (H := @I2CGps.gps round_of_short_decimal)
             default_settings (no_fix_at 650) (i2c_cache (Some fix0))) =
    Err (Exception_from (Last_fix_is_too_old 650000000 600000000)
           (Exception (Literal "No GPS Fix")))
  /\ events (get_data (H := @I2CGps.gps round_of_short_decimal)
               default_settings (no_fix_at 650) (i2c_cache (Some fix0))) = [].
Proof.
  apply (old_fix_raises (H := @I2CGps.gps round_of_short_decimal)
           default_settings (no_fix_at 650) (i2c_cache (Some fix0))
           (Exception (Literal "No GPS Fix")) fix0).
  - reflexivity.
  - reflexivity.
  - vm_compute. discriminate.
Defined.

(** C3. While no fix is stored, [get_data] raises "Waiting for first fix"
    whenever [_get_data] raises, whatever exception that is. *)
Theorem no_fix_yet_raises {S} `{Gps S} (cfg : Settings) (w : World)
    (self : BaseGps S) (ex : exn) :
  _last_fix self = None ->
  outcome (_get_data cfg w (own self)) = Err ex ->
  outcome (get_data cfg w self) =
    Err (Exception (Literal "Waiting for first fix")).
Proof.
  intros Hlast Hacq. rewrite get_data_eq, Hacq, Hlast. reflexivity.
Qed.

Lemma no_fix_yet_raises_witness :
  outcome (get_data (H := @GpsdGps.gps round_of_short_decimal)
             default_settings (daemon_down_at 5)
             (BaseGps_init GpsdGps.init)) =
    Err (Exception (Literal "Waiting for first fix")).
Proof.
  apply (no_fix_yet_raises (H := @GpsdGps.gps round_of_short_decimal)
           default_settings (daemon_down_at 5) (BaseGps_init GpsdGps.init)
           (Raised "ConnectionRefusedError" (Literal "Connection refused"))).
  - reflexivity.
  - reflexivity.
Defined.

(** The scenario of the policy, on the I2C GPS with a maximum age of 600
    seconds: a fix at second 0, then no fix at seconds 300, 600 and 650.
    The call at 300 returns the fix of second 0 with a warning; at 600 the
    age equals the maximum and the call raises, as it does at 650. *)
Example staleness_scenario :
  fst (successive_calls (H := @I2CGps.gps round_of_short_decimal)
         default_settings
         [fix_at 0 37.42 (-122.08) 30; no_fix_at 300; no_fix_at 600;
          no_fix_at 650]
         (i2c_cache None)) =
  [ (Ok fix0, []);
    (Ok fix0, [Log WARNING (Using_last_known_fix 300000000) None]);
    (Err (Exception_from (Last_fix_is_too_old 600000000 600000000)
            (Exception (Literal "No GPS Fix"))), []);
    (Err (Exception_from (Last_fix_is_too_old 650000000 600000000)
            (Exception (Literal "No GPS Fix"))), []) ].
Proof. reflexivity. Qed.

(** C8. A call of [get_data] in which [_get_data] raises leaves the stored
    fix as it was, whichever way the call ends; the stored fix is replaced
    only by a call in which [_get_data] returns, and then by what it
    returned. *)
Theorem last_fix_replaced_only_on_success {S} `{Gps S} (cfg : Settings)
    (w : World) (self : BaseGps S) :
  match outcome (_get_data cfg w (own self)) with
  | Err _ => _last_fix (state_after (get_data cfg w self)) = _last_fix self
  | Ok fix_ => _last_fix (state_after (get_data cfg w self)) = Some fix_
  end.
Proof.
  rewrite get_data_eq.
  destruct (outcome (_get_data cfg w (own self))) as [fix_|ex];
    [reflexivity|].
  destruct (_last_fix self) as [last_fix|]; simpl; [|reflexivity].
  destruct (now w - acquired_at last_fix <? GPS_FIX_MAX_AGE cfg);
    reflexivity.
Qed.

(** C9. Whenever [get_data] returns, the fix it returns is the fix stored
    in the object when it returns; in particular a fix is stored. *)
Theorem returned_fix_is_stored_fix {S} `{Gps S} (cfg : Settings) (w : World)
    (self : BaseGps S) (fix_ : GpsData) :
  outcome (get_data cfg w self) = Ok fix_ ->
  _last_fix (state_after (get_data cfg w self)) = Some fix_.
Proof.
  rewrite get_data_eq.
  destruct (outcome (_get_data cfg w (own self))) as [got|ex]; simpl.
  - intros Hret. inversion Hret. reflexivity.
  - destruct (_last_fix self) as [last_fix|]; simpl; [|discriminate].
    destruct (now w - acquired_at last_fix <? GPS_FIX_MAX_AGE cfg); simpl.
    + intros Hret. inversion Hret. reflexivity.
    + discriminate.
Qed.

Lemma returned_fix_is_stored_fix_witness :
  _last_fix (state_after
               (get_data (H := @I2CGps.gps round_of_short_decimal)
                  default_settings (fix_at 0 37.42 (-122.08) 30.0)
                  (i2c_cache None))) = Some fix0.
Proof.
  apply (returned_fix_is_stored_fix (H := @I2CGps.gps round_of_short_decimal)
           default_settings (fix_at 0 37.42 (-122.08) 30.0) (i2c_cache None)
           fix0).
  reflexivity.
Defined.

(** A call of [get_data] that raises has logged nothing. *)
Lemma get_data_raises_silently {S} `{Gps S} (cfg : Settings) (w : World)
    (self : BaseGps S) (ex : exn) :
  outcome (get_data cfg w self) = Err ex ->
  events (get_data cfg w self) = [].
Proof.
  rewrite get_data_eq.
  destruct (outcome (_get_data cfg w (own self))) as [got|ex']; simpl;
    [discriminate|].
  destruct (_last_fix self) as [last_fix|]; simpl; [|reflexivity].
  destruct (now w - acquired_at last_fix <? GPS_FIX_MAX_AGE cfg); simpl;
    [discriminate|reflexivity].
Qed.

(** ** GpsdGps: a failed connect *)

(** When [gpsd.connect()] raises, [_connect] raises the same exception and
    leaves [_is_valid] true: the [finally] clause runs after the handler. *)
Lemma connect_failure_marks_valid (w : World) (self : GpsdGps.t) (ex : exn) :
  gpsd_connect w = Err ex ->
  GpsdGps._connect w self = (Err ex, GpsdGps.mk true, []).
Proof.
  intros Hconn.
  unfold GpsdGps._connect, GpsdGps.set_is_valid, try_finally, try_except,
    bind, call, modify, raise.
  rewrite Hconn. reflexivity.
Qed.

(** An object whose [_is_valid] is true does not call [gpsd.connect()]:
    the answer that call would get plays no part. *)
Lemma valid_object_does_not_connect `{Builtin_round} (cfg : Settings)
    (w w' : World) :
  now w = now w' ->
  gpsd_get_current w = gpsd_get_current w' ->
  GpsdGps._get_data cfg w (GpsdGps.mk true) =
  GpsdGps._get_data cfg w' (GpsdGps.mk true).
Proof.
  intros Hnow Hcur.
  unfold GpsdGps._get_data, bind, gets, ret, try_except, call; simpl.
  rewrite Hnow, Hcur. reflexivity.
Qed.

(** C4. With the daemon down and [_is_valid] false, [_get_data] raises the
    error of the connect call and leaves [_is_valid] true.  The next call,
    with the daemon still down, does not connect: it goes to
    [gpsd.get_current()], raises that call's error, and only then is
    [_is_valid] false. *)
Theorem failed_connect_leaves_is_valid_true :
  let first :=
    GpsdGps._get_data (H := round_of_short_decimal) default_settings
      (daemon_down_at 5) GpsdGps.init in
  let second :=
    GpsdGps._get_data (H := round_of_short_decimal) default_settings
      (daemon_down_at 6) (state_after first) in
  first =
    (Err (Raised "ConnectionRefusedError" (Literal "Connection refused")),
     GpsdGps.mk true, [])
  /\ second =
    (Err (Raised "Exception" (Literal "not connected")),
     GpsdGps.mk false, []).
Proof. split; reflexivity. Qed.

(** ** DummyGps *)

(** C7, as the code has it.  [_get_data] of [DummyGps] never raises,
    changes nothing and logs nothing; the fix it returns has the configured
    latitude, longitude and altitude, and the moment of the call as its
    [acquired_at].  So does [get_data], which stores that fix. *)
Theorem dummy_fix_is_configured_position (cfg : Settings) (w : World)
    (self : BaseGps DummyGps.t) :
  let fix_ :=
    mkGpsData (DummyGps._latitude (own self)) (DummyGps._longitude (own self))
      (Some (DummyGps._altitude (own self))) (now w) in
  DummyGps._get_data cfg w (own self) = (Ok fix_, own self, [])
  /\ get_data cfg w self = (Ok fix_, mkBaseGps (Some fix_) (own self), []).
Proof.
  simpl. split; [reflexivity|].
  rewrite get_data_eq. reflexivity.
Qed.

(** C7, as stated, fails: two calls on one object, one second apart,
    return fixes that differ (in [acquired_at]). *)
Lemma dummy_fixes_differ_in_acquired_at :
  outcome (DummyGps._get_data default_settings (no_fix_at 0)
             (DummyGps.init 37.42 (-122.08) 30)) <>
  outcome (DummyGps._get_data default_settings (no_fix_at 1)
             (DummyGps.init 37.42 (-122.08) 30)).
Proof. vm_compute. discriminate. Qed.

(** ** ENABLE_INFLUXDB *)

Lemma str_in_spec (x : string) (xs : list string) :
  str_in x xs = true <-> In x xs.
Proof.
  unfold str_in. rewrite existsb_exists. split.
  - intros [y [Hin Heq]]. apply String.eqb_eq in Heq. subst. assumption.
  - intros Hin. exists x. split; [assumption|apply String.eqb_refl].
Qed.

(** C10. [ENABLE_INFLUXDB] is true exactly when the variable is unset or
    is one of "true", "True", "1", "yes", "Yes". *)
Theorem enable_influxdb_iff (env : environ) :
  ENABLE_INFLUXDB env = true <->
  env "ENABLE_INFLUXDB" = None
  \/ env "ENABLE_INFLUXDB" = Some "true"
  \/ env "ENABLE_INFLUXDB" = Some "True"
  \/ env "ENABLE_INFLUXDB" = Some "1"
  \/ env "ENABLE_INFLUXDB" = Some "yes"
  \/ env "ENABLE_INFLUXDB" = Some "Yes".
Proof.
  unfold ENABLE_INFLUXDB, getenv. rewrite str_in_spec.
  destruct (env "ENABLE_INFLUXDB") as [v|]; simpl.
  - split.
    + intros [E|[E|[E|[E|[E|[]]]]]]; subst; auto 10.
    + intros [E|[E|[E|[E|[E|E]]]]]; try discriminate;
        inversion E; subst; auto 10.
  - split; auto.
Qed.

Example enable_influxdb_upper_case :
  ENABLE_INFLUXDB (only_enable_influxdb "TRUE") = false
  /\ ENABLE_INFLUXDB (only_enable_influxdb "YES") = false
  /\ ENABLE_INFLUXDB (only_enable_influxdb "") = false
  /\ ENABLE_INFLUXDB (only_enable_influxdb "yes") = true
  /\ ENABLE_INFLUXDB (fun _ => None) = true.
Proof. repeat split; reflexivity. Qed.

(** ** The polling loop *)

(** The iteration, by whether it gets past the two [continue]s. *)
Lemma iteration_skips {S} `{Gps S} (cfg : Settings) (c : Cycle)
    (p : Process S) (ex : exn) :
  data_available c = true ->
  outcome (get_data cfg (world c) (gps p)) = Err ex ->
  iteration cfg c p =
  (Ok tt,
   mkProcess (state_after (get_data cfg (world c) (gps p))) (scd p),
   [ Sleep (POLL_INTERVAL_SECONDS cfg);
     Log ERROR (Literal "Error getting current GPS position") (Some ex) ]).
Proof.
  intros Hda Hfail.
  pose proof (get_data_raises_silently cfg (world c) (gps p) ex Hfail)
    as Hquiet.
  unfold iteration. rewrite Hda. simpl.
  unfold bind, try_except, on_gps, within, emit, ret,
    outcome, state_after, events in *.
  destruct (get_data cfg (world c) (gps p)) as [[r g] out]; simpl in *.
  subst r out. reflexivity.
Qed.

(** C5. In an iteration in which [get_data] is called and raises, the body
    logs the error and goes on: no exception leaves the body, the only
    events are the sleep and the error record — nothing is handed to a
    sink —, the SCD30 attributes are untouched, and the loop carries on
    with the next iteration. *)
Theorem gps_failure_skips_the_cycle {S} `{Gps S} (cfg : Settings) (c : Cycle)
    (rest : list Cycle) (p : Process S) (ex : exn) :
  data_available c = true ->
  outcome (get_data cfg (world c) (gps p)) = Err ex ->
  let p' := state_after (iteration cfg c p) in
  let logged :=
    [ Sleep (POLL_INTERVAL_SECONDS cfg);
      Log ERROR (Literal "Error getting current GPS position") (Some ex) ] in
  outcome (iteration cfg c p) = Ok tt
  /\ events (iteration cfg c p) = logged
  /\ existsb is_sink_event (events (iteration cfg c p)) = false
  /\ scd p' = scd p
  /\ outcome (main_loop cfg (c :: rest) p) = outcome (main_loop cfg rest p')
  /\ events (main_loop cfg (c :: rest) p) =
       logged ++ events (main_loop cfg rest p').
Proof.
  intros Hda Hfail. simpl.
  unfold bind.
  rewrite (iteration_skips cfg c p ex Hda Hfail).
  unfold outcome, state_after, events; simpl.
  destruct (main_loop cfg rest _) as [[r final] out]; simpl.
  repeat split; reflexivity.
Qed.

Lemma gps_failure_skips_the_cycle_witness :
  let cfg := default_settings in
  let c := cycle_daemon_down 5 1013.25 in
  let rest := [cycle_daemon_down 6 1013.25] in
  let p := process_before_loop GpsdGps.init in
  let ex := Exception (Literal "Waiting for first fix") in
  let p' :=
    state_after (iteration (H := @GpsdGps.gps round_of_short_decimal)
                   cfg c p) in
  let logged :=
    [ Sleep (POLL_INTERVAL_SECONDS cfg);
      Log ERROR (Literal "Error getting current GPS position") (Some ex) ] in
  outcome (iteration (H := @GpsdGps.gps round_of_short_decimal) cfg c p)
    = Ok tt
  /\ events (iteration (H := @GpsdGps.gps round_of_short_decimal) cfg c p)
     = logged
  /\ existsb is_sink_event
       (events (iteration (H := @GpsdGps.gps round_of_short_decimal) cfg c p))
     = false
  /\ scd p' = scd p
  /\ outcome (main_loop (H := @GpsdGps.gps round_of_short_decimal)
                cfg (c :: rest) p)
     = outcome (main_loop (H := @GpsdGps.gps round_of_short_decimal)
                  cfg rest p')
  /\ events (main_loop (H := @GpsdGps.gps round_of_short_decimal)
               cfg (c :: rest) p)
     = logged ++ events (main_loop (H := @GpsdGps.gps round_of_short_decimal)
                           cfg rest p').
Proof.
  apply (gps_failure_skips_the_cycle
           (H := @GpsdGps.gps round_of_short_decimal)
           default_settings (cycle_daemon_down 5 1013.25)
           [cycle_daemon_down 6 1013.25]
           (process_before_loop GpsdGps.init)
           (Exception (Literal "Waiting for first fix"))).
  - reflexivity.
  - reflexivity.
Defined.

#[local] Arguments ghg_point : simpl never.
#[local] Arguments mqtt_data : simpl never.

(** The body of the loop, path by path. *)
Lemma iteration_eq {S} `{Gps S} (cfg : Settings) (c : Cycle) (p : Process S) :
  iteration cfg c p =
  let nap := Sleep (POLL_INTERVAL_SECONDS cfg) in
  if data_available c then
    match get_data cfg (world c) (gps p) with
    | (Err ex, g, out) =>
        (Ok tt, mkProcess g (scd p),
         nap :: out ++
           [Log ERROR (Literal "Error getting current GPS position")
                (Some ex)])
    | (Ok f, g, out) =>
        match calibrated c (scd p) with
        | Err ex => (Err ex, mkProcess g (scd p), nap :: out)
        | Ok sc =>
            let p2 := mkProcess g sc in
            if ENABLE_INFLUXDB (os_environ cfg) then
              match ghg_point cfg c f with
              | Err ex => (Err ex, p2, nap :: out)
              | Ok point =>
                  let write := Influx_write BUCKET ORG point in
                  match write_api_write c with
                  | Err ex => (Err ex, p2, nap :: out ++ [write])
                  | Ok _ =>
                      match mqtt_data c f with
                      | Err ex => (Err ex, p2, nap :: out ++ [write])
                      | Ok data =>
                          (Ok tt, p2,
                           nap :: out ++ [write; Log INFO (Json data) None])
                      end
                  end
              end
            else
              match mqtt_data c f with
              | Err ex => (Err ex, p2, nap :: out)
              | Ok data =>
                  (Ok tt, p2, nap :: out ++ [Log INFO (Json data) None])
              end
        end
    end
  else (Ok tt, p, [nap]).
Proof.
  unfold iteration, calibrated, and_then.
  destruct (data_available c); simpl; [|reflexivity].
  unfold bind, try_except, on_gps, within, emit, ret, gets, call,
    set_ambient_pressure, modify.
  destruct (get_data cfg (world c) (gps p)) as [[r g] out]; simpl.
  destruct r as [f|ex]; simpl; [|rewrite ?app_nil_r; reflexivity].
  destruct (pressure_tested c) as [tested|ex]; simpl;
    [|rewrite ?app_nil_r; reflexivity].
  destruct (0 <? tested)%float; simpl.
  - destruct (pressure_assigned c) as [assigned|ex]; simpl;
      [|rewrite ?app_nil_r; reflexivity].
    destruct (scd_ambient_pressure_setter c assigned) as [held|ex]; simpl;
      [|rewrite ?app_nil_r; reflexivity].
    destruct (ENABLE_INFLUXDB (os_environ cfg)); simpl.
    + destruct (ghg_point cfg c f) as [point|ex]; simpl;
        [|rewrite ?app_nil_r; reflexivity].
      destruct (write_api_write c) as [[]|ex]; simpl;
        [|rewrite ?app_nil_r; reflexivity].
      destruct (mqtt_data c f) as [data|ex]; simpl;
        rewrite ?app_nil_r, <- ?app_assoc; reflexivity.
    + destruct (mqtt_data c f) as [data|ex]; simpl;
        rewrite ?app_nil_r, <- ?app_assoc; reflexivity.
  - destruct (ENABLE_INFLUXDB (os_environ cfg)); simpl.
    + destruct (ghg_point cfg c f) as [point|ex]; simpl;
        [|rewrite ?app_nil_r; reflexivity].
      destruct (write_api_write c) as [[]|ex]; simpl;
        [|rewrite ?app_nil_r; reflexivity].
      destruct (mqtt_data c f) as [data|ex]; simpl;
        rewrite ?app_nil_r, <- ?app_assoc; reflexivity.
    + destruct (mqtt_data c f) as [data|ex]; simpl;
        rewrite ?app_nil_r, <- ?app_assoc; reflexivity.
Qed.

(** The settings of the SCD30 after an iteration: those of lines 280-281
    when the iteration got there and they raised nothing, the former ones
    otherwise. *)
Lemma scd_after_iteration {S} `{Gps S} (cfg : Settings) (c : Cycle)
    (p : Process S) :
  scd (state_after (iteration cfg c p)) =
  if data_available c && returns (outcome (get_data cfg (world c) (gps p)))
  then match calibrated c (scd p) with
       | Ok sc => sc
       | Err _ => scd p
       end
  else scd p.
Proof.
  rewrite iteration_eq. cbv zeta. unfold state_after, outcome.
  destruct (data_available c); simpl; [|reflexivity].
  destruct (get_data cfg (world c) (gps p)) as [[r g] out]; simpl.
  destruct r as [f|ex]; simpl; [|reflexivity].
  destruct (calibrated c (scd p)) as [sc|ex]; simpl; [|reflexivity].
  destruct (ENABLE_INFLUXDB (os_environ cfg)).
  - destruct (ghg_point cfg c f) as [point|ex]; [|reflexivity].
    destruct (write_api_write c) as [[]|ex]; [|reflexivity].
    destruct (mqtt_data c f) as [data|ex]; reflexivity.
  - destruct (mqtt_data c f) as [data|ex]; reflexivity.
Qed.



(** The iteration on concrete answers, with the dummy GPS: of a reading of
    1013.25 the sensor holds 1013, and both sinks get the record; a reading
    of 0 leaves the 1007 set before the loop; a reading tested at 1013.25
    and read again at 0 for the assignment puts 0 in the sensor; without
    data from the SCD30 the iteration only sleeps. *)
Example iteration_with_positive_pressure :
  ambient_pressure
    (scd (state_after (iteration default_settings (cycle_at 1 true 1013.25)
                         dummy_process))) = VInt 1013
  /\ map is_sink_event
       (events (iteration default_settings (cycle_at 1 true 1013.25)
                  dummy_process)) = [false; true; true].
Proof. split; vm_compute; reflexivity. Qed.

Example iteration_with_zero_pressure :
  ambient_pressure
    (scd (state_after (iteration default_settings (cycle_at 1 true 0)
                         dummy_process))) = VInt 1007
  /\ map is_sink_event
       (events (iteration default_settings (cycle_at 1 true 0)
                  dummy_process)) = [false; true; true].
Proof. split; vm_compute; reflexivity. Qed.

Example iteration_with_two_readings :
  ambient_pressure
    (scd (state_after
            (iteration default_settings
               {| data_available := true;
                  world := no_fix_at 1;
                  pressure_tested := Ok 1013.25%float;
                  pressure_assigned := Ok 0%float;
                  scd_ambient_pressure_setter := adafruit_scd30_setter;
                  point_reads := point_reads (cycle_at 1 true 0);
                  utcnow := 1000000;
                  write_api_write := Ok tt;
                  data_reads := data_reads (cycle_at 1 true 0) |}
               dummy_process))) = VInt 0.
Proof. vm_compute. reflexivity. Qed.

Example iteration_without_data :
  iteration default_settings (cycle_at 1 false 1013.25) dummy_process =
  (Ok tt, dummy_process, [Sleep 0.5]).
Proof. reflexivity. Qed.

(** * Further properties of the code *)

(** ** get_data over several calls *)

(** [get_data] logs at most the fallback warning. *)
Lemma get_data_events_cases {S} `{Gps S} (cfg : Settings) (w : World)
    (self : BaseGps S) :
  events (get_data cfg w self) = []
  \/ exists age,
       events (get_data cfg w self) =
       [Log WARNING (Using_last_known_fix age) None].
Proof.
  rewrite get_data_eq.
  destruct (outcome (_get_data cfg w (own self))) as [got|ex]; simpl;
    [left; reflexivity|].
  destruct (_last_fix self) as [last_fix|]; simpl; [|left; reflexivity].
  destruct (now w - acquired_at last_fix <? GPS_FIX_MAX_AGE cfg); simpl;
    [right; eexists; reflexivity | left; reflexivity].
Qed.

(** The fields of the subclass after [get_data] are those [_get_data]
    leaves. *)
Lemma get_data_own {S} `{Gps S} (cfg : Settings) (w : World)
    (self : BaseGps S) :
  own (state_after (get_data cfg w self)) =
  state_after (_get_data cfg w (own self)).
Proof.
  rewrite get_data_eq.
  destruct (outcome (_get_data cfg w (own self))) as [got|ex]; simpl;
    [reflexivity|].
  destruct (_last_fix self) as [last_fix|]; simpl; [|reflexivity].
  destruct (now w - acquired_at last_fix <? GPS_FIX_MAX_AGE cfg);
    reflexivity.
Qed.

(** X1. The fallback uses the newest fix: when a call acquires the fix
    [fresh], whatever was stored before, and the next call fails while
    [fresh] is younger than the maximum age, that next call returns
    [fresh]. *)
Theorem fallback_returns_newest_fix {S} `{Gps S} (cfg : Settings)
    (w1 w2 : World) (self : BaseGps S) (fresh : GpsData) (ex : exn) :
  outcome (_get_data cfg w1 (own self)) = Ok fresh ->
  outcome (_get_data cfg w2 (state_after (_get_data cfg w1 (own self))))
    = Err ex ->
  now w2 - acquired_at fresh < GPS_FIX_MAX_AGE cfg ->
  outcome (get_data cfg w1 self) = Ok fresh
  /\ events (get_data cfg w1 self) = []
  /\ outcome (get_data cfg w2 (state_after (get_data cfg w1 self)))
     = Ok fresh.
Proof.
  intros Hok Hfail Hage.
  rewrite (get_data_ok cfg w1 self fresh Hok).
  unfold outcome at 1, events at 1, state_after at 1; simpl.
  repeat split.
  rewrite (get_data_stale cfg w2 _ ex fresh); simpl; auto.
  unfold still_fresh. apply Z.ltb_lt. assumption.
Qed.

Lemma fallback_returns_newest_fix_witness :
  outcome (get_data (H := @I2CGps.gps round_of_short_decimal)
             default_settings (fix_at 700 37.42 (-122.08) 30)
             (i2c_cache (Some fix0)))
    = Ok (mkGpsData 37.42 (-122.08) (Some 30%float) 700000000)
  /\ events (get_data (H := @I2CGps.gps round_of_short_decimal)
               default_settings (fix_at 700 37.42 (-122.08) 30)
               (i2c_cache (Some fix0))) = []
  /\ outcome (get_data (H := @I2CGps.gps round_of_short_decimal)
                default_settings (no_fix_at 900)
                (state_after
                   (get_data (H := @I2CGps.gps round_of_short_decimal)
                      default_settings (fix_at 700 37.42 (-122.08) 30)
                      (i2c_cache (Some fix0)))))
     = Ok (mkGpsData 37.42 (-122.08) (Some 30%float) 700000000).
Proof.
  apply (fallback_returns_newest_fix
           (H := @I2CGps.gps round_of_short_decimal)
           default_settings (fix_at 700 37.42 (-122.08) 30) (no_fix_at 900)
           (i2c_cache (Some fix0))
           (mkGpsData 37.42 (-122.08) (Some 30%float) 700000000)
           (Exception (Literal "No GPS Fix"))).
  - reflexivity.
  - reflexivity.
  - reflexivity.
Defined.

(** A failing acquisition with a stored fix that is too old, in full. *)
Lemma get_data_too_old {S} `{Gps S} (cfg : Settings) (w : World)
    (self : BaseGps S) (ex : exn) (F : GpsData) :
  outcome (_get_data cfg w (own self)) = Err ex ->
  _last_fix self = Some F ->
  GPS_FIX_MAX_AGE cfg <= now w - acquired_at F ->
  get_data cfg w self =
  (Err (Exception_from
          (Last_fix_is_too_old (now w - acquired_at F) (GPS_FIX_MAX_AGE cfg))
          ex),
   mkBaseGps (Some F) (state_after (_get_data cfg w (own self))),
   []).
Proof.
  intros Hacq Hlast Hage.
  rewrite get_data_eq, Hacq, Hlast. simpl.
  rewrite (proj2 (Z.ltb_ge _ _) Hage). reflexivity.
Qed.

(** X2. Once the stored fix is too old it stays too old: if a failing call
    raises "Last fix is too old", every later failing call, at a moment not
    before the first, raises it as well. *)
Theorem too_old_stays_too_old {S} `{Gps S} (cfg : Settings) (w1 w2 : World)
    (self : BaseGps S) (F : GpsData) (ex1 ex2 : exn) :
  _last_fix self = Some F ->
  outcome (_get_data cfg w1 (own self)) = Err ex1 ->
  outcome (_get_data cfg w2 (state_after (_get_data cfg w1 (own self))))
    = Err ex2 ->
  GPS_FIX_MAX_AGE cfg <= now w1 - acquired_at F ->
  now w1 <= now w2 ->
  outcome (get_data cfg w2 (state_after (get_data cfg w1 self))) =
    Err (Exception_from
           (Last_fix_is_too_old (now w2 - acquired_at F) (GPS_FIX_MAX_AGE cfg))
           ex2).
Proof.
  intros Hlast Hf1 Hf2 Hold Hlater.
  rewrite (get_data_too_old cfg w1 self ex1 F Hf1 Hlast Hold).
  unfold state_after at 1; simpl.
  rewrite (get_data_too_old cfg w2 _ ex2 F); simpl; auto.
  lia.
Qed.

Lemma too_old_stays_too_old_witness :
  outcome (get_data (H := @I2CGps.gps round_of_short_decimal)
             default_settings (no_fix_at 900)
             (state_after
                (get_data (H := @I2CGps.gps round_of_short_decimal)
                   default_settings (no_fix_at 650)
                   (i2c_cache (Some fix0))))) =
    Err (Exception_from (Last_fix_is_too_old 900000000 600000000)
           (Exception (Literal "No GPS Fix"))).
Proof.
  apply (too_old_stays_too_old (H := @I2CGps.gps round_of_short_decimal)
           default_settings (no_fix_at 650) (no_fix_at 900)
           (i2c_cache (Some fix0)) fix0
           (Exception (Literal "No GPS Fix"))
           (Exception (Literal "No GPS Fix"))).
  - reflexivity.
  - reflexivity.
  - reflexivity.
  - vm_compute. discriminate.
  - vm_compute. discriminate.
Defined.

(** X3. With a maximum age of zero seconds or less the stored fix is never
    used: a failing call made at or after the moment the fix was taken
    raises "Last fix is too old". *)
Theorem no_fallback_without_max_age {S} `{Gps S} (cfg : Settings) (w : World)
    (self : BaseGps S) (F : GpsData) (ex : exn) :
  GPS_FIX_MAX_AGE_SECONDS cfg <= 0 ->
  _last_fix self = Some F ->
  acquired_at F <= now w ->
  outcome (_get_data cfg w (own self)) = Err ex ->
  outcome (get_data cfg w self) =
    Err (Exception_from
           (Last_fix_is_too_old (now w - acquired_at F) (GPS_FIX_MAX_AGE cfg))
           ex).
Proof.
  intros Hmax Hlast Hclock Hfail.
  rewrite (get_data_too_old cfg w self ex F Hfail Hlast); [reflexivity|].
  unfold GPS_FIX_MAX_AGE, timedelta_of_seconds. lia.
Qed.

Lemma no_fallback_without_max_age_witness :
  outcome (get_data (H := @I2CGps.gps round_of_short_decimal)
             {| os_environ := fun _ => None;
                POLL_INTERVAL_SECONDS := 0.5;
                GPS_DIGITS_PRECISION := 2;
                GPS_FIX_MAX_AGE_SECONDS := 0 |}
             (no_fix_at 0) (i2c_cache (Some fix0))) =
    Err (Exception_from (Last_fix_is_too_old 0 0)
           (Exception (Literal "No GPS Fix"))).
Proof.
  apply (no_fallback_without_max_age
           (H := @I2CGps.gps round_of_short_decimal)
           {| os_environ := fun _ => None;
              POLL_INTERVAL_SECONDS := 0.5;
              GPS_DIGITS_PRECISION := 2;
              GPS_FIX_MAX_AGE_SECONDS := 0 |}
           (no_fix_at 0) (i2c_cache (Some fix0)) fix0
           (Exception (Literal "No GPS Fix"))).
  - vm_compute. discriminate.
  - reflexivity.
  - vm_compute. discriminate.
  - reflexivity.
Defined.

(** X4. A clock set back does not age the fix: when a failing call is made
    at a moment before the stored fix was taken and the maximum age is
    positive, the stored fix is returned. *)
Theorem clock_set_back_returns_fix {S} `{Gps S} (cfg : Settings) (w : World)
    (self : BaseGps S) (F : GpsData) (ex : exn) :
  0 < GPS_FIX_MAX_AGE_SECONDS cfg ->
  _last_fix self = Some F ->
  now w <= acquired_at F ->
  outcome (_get_data cfg w (own self)) = Err ex ->
  outcome (get_data cfg w self) = Ok F.
Proof.
  intros Hmax Hlast Hclock Hfail.
  rewrite (get_data_stale cfg w self ex F Hfail Hlast); [reflexivity|].
  unfold still_fresh, GPS_FIX_MAX_AGE, timedelta_of_seconds.
  apply Z.ltb_lt. lia.
Qed.

Lemma clock_set_back_returns_fix_witness :
  outcome (get_data (H := @I2CGps.gps round_of_short_decimal)
             default_settings (no_fix_at (-86400)) (i2c_cache (Some fix0)))
    = Ok fix0.
Proof.
  apply (clock_set_back_returns_fix
           (H := @I2CGps.gps round_of_short_decimal)
           default_settings (no_fix_at (-86400)) (i2c_cache (Some fix0)) fix0
           (Exception (Literal "No GPS Fix"))).
  - reflexivity.
  - reflexivity.
  - vm_compute. discriminate.
  - reflexivity.
Defined.

(** X5. [get_data] logs exactly when it falls back on the stored fix: it
    produces an event if and only if [_get_data] raised and [get_data]
    nevertheless returned. *)
Theorem get_data_logs_iff_fallback {S} `{Gps S} (cfg : Settings) (w : World)
    (self : BaseGps S) :
  events (get_data cfg w self) <> [] <->
  returns (outcome (_get_data cfg w (own self))) = false
  /\ returns (outcome (get_data cfg w self)) = true.
Proof.
  rewrite get_data_eq.
  destruct (outcome (_get_data cfg w (own self))) as [got|ex]; simpl.
  - split; [intros Hne; contradiction Hne; reflexivity|].
    intros [Hno _]. discriminate.
  - destruct (_last_fix self) as [last_fix|]; simpl.
    + destruct (now w - acquired_at last_fix <? GPS_FIX_MAX_AGE cfg); simpl.
      * split; [auto|]. intros _. discriminate.
      * split; [intros Hne; contradiction Hne; reflexivity|].
        intros [_ Hno]. discriminate.
    + split; [intros Hne; contradiction Hne; reflexivity|].
      intros [_ Hno]. discriminate.
Qed.

(** ** GpsdGps and I2CGps *)

Ltac run_gpsd :=
  unfold GpsdGps._get_data, GpsdGps._connect, GpsdGps.set_is_valid,
    outcome, state_after, events, bind, try_except, try_finally, gets,
    modify, call, raise, ret; simpl.

(** X6. The flag after [GpsdGps._get_data]: [_is_valid] is true when the
    call returned a fix, and also when the object was not valid and the
    connect call raised; after any other failure it is false. *)
Theorem gpsd_is_valid_after `{Builtin_round} (cfg : Settings) (w : World)
    (self : GpsdGps.t) :
  GpsdGps._is_valid (state_after (GpsdGps._get_data cfg w self)) =
  returns (outcome (GpsdGps._get_data cfg w self))
  || (negb (GpsdGps._is_valid self) && negb (returns (gpsd_connect w))).
Proof.
  destruct self as [valid]. run_gpsd.
  destruct valid; simpl.
  - destruct (gpsd_get_current w) as [packet|ex]; simpl; [|reflexivity].
    destruct (position packet) as [xy|ex]; simpl; [|reflexivity].
    destruct (packet_altitude packet) as [alt|ex]; reflexivity.
  - destruct (gpsd_connect w) as [[]|ex]; simpl; [|reflexivity].
    destruct (gpsd_get_current w) as [packet|ex]; simpl; [|reflexivity].
    destruct (position packet) as [xy|ex]; simpl; [|reflexivity].
    destruct (packet_altitude packet) as [alt|ex]; reflexivity.
Qed.

(** X7. After a failure while fetching, the next call connects again: if a
    call on a valid object raises, the next call raises the error of
    [gpsd.connect()] when that call fails. *)
Theorem gpsd_reconnects_after_failed_fetch `{Builtin_round} (cfg : Settings)
    (w1 w2 : World) (self : GpsdGps.t) (ex1 ex2 : exn) :
  GpsdGps._is_valid self = true ->
  outcome (GpsdGps._get_data cfg w1 self) = Err ex1 ->
  gpsd_connect w2 = Err ex2 ->
  outcome (GpsdGps._get_data cfg w2
             (state_after (GpsdGps._get_data cfg w1 self))) = Err ex2.
Proof.
  destruct self as [valid]. simpl. intros Hvalid Hfail Hconn. subst valid.
  revert Hfail. run_gpsd.
  destruct (gpsd_get_current w1) as [packet|ex]; simpl.
  - destruct (position packet) as [xy|ex]; simpl.
    + destruct (packet_altitude packet) as [alt|ex]; simpl;
        [discriminate|].
      intros _. rewrite Hconn. reflexivity.
    + intros _. rewrite Hconn. reflexivity.
  - intros _. rewrite Hconn. reflexivity.
Qed.

Lemma gpsd_reconnects_after_failed_fetch_witness :
  outcome (GpsdGps._get_data (H := round_of_short_decimal) default_settings
             (daemon_down_at 6)
             (state_after
                (GpsdGps._get_data (H := round_of_short_decimal)
                   default_settings (daemon_down_at 5) (GpsdGps.mk true))))
    = Err (Raised "ConnectionRefusedError" (Literal "Connection refused")).
Proof.
  apply (gpsd_reconnects_after_failed_fetch (H := round_of_short_decimal)
           default_settings (daemon_down_at 5) (daemon_down_at 6)
           (GpsdGps.mk true)
           (Raised "Exception" (Literal "not connected"))
           (Raised "ConnectionRefusedError" (Literal "Connection refused"))).
  - reflexivity.
  - reflexivity.
  - reflexivity.
Defined.

(** X8. A fix returned by [GpsdGps._get_data] comes from the current packet
    of the daemon: latitude and longitude are the packet's, rounded to
    [GPS_DIGITS_PRECISION]; the altitude is the packet's as it is; and
    [acquired_at] is the moment of the call. *)
Theorem gpsd_fix_comes_from_packet `{Builtin_round} (cfg : Settings)
    (w : World) (self : GpsdGps.t) (f : GpsData) :
  outcome (GpsdGps._get_data cfg w self) = Ok f ->
  exists packet lat lon alt,
    gpsd_get_current w = Ok packet
    /\ position packet = Ok (lat, lon)
    /\ packet_altitude packet = Ok alt
    /\ f = mkGpsData (round lat (GPS_DIGITS_PRECISION cfg))
                     (round lon (GPS_DIGITS_PRECISION cfg))
                     (Some alt) (now w).
Proof.
  destruct self as [valid]. run_gpsd.
  destruct valid; simpl.
  - destruct (gpsd_get_current w) as [packet|ex]; simpl; [|discriminate].
    destruct (position packet) as [[lat lon]|ex] eqn:Hpos; simpl;
      [|discriminate].
    destruct (packet_altitude packet) as [alt|ex] eqn:Halt; simpl;
      [|discriminate].
    intros Hret. inversion Hret; subst.
    exists packet, lat, lon, alt. auto.
  - destruct (gpsd_connect w) as [[]|ex]; simpl; [|discriminate].
    destruct (gpsd_get_current w) as [packet|ex']; simpl; [|discriminate].
    destruct (position packet) as [[lat lon]|ex'] eqn:Hpos; simpl;
      [|discriminate].
    destruct (packet_altitude packet) as [alt|ex'] eqn:Halt; simpl;
      [|discriminate].
    intros Hret. inversion Hret; subst.
    exists packet, lat, lon, alt. auto.
Qed.

Lemma gpsd_fix_comes_from_packet_witness :
  exists packet lat lon alt,
    gpsd_get_current (fix_at 7 37.42 (-122.08) 30) = Ok packet
    /\ position packet = Ok (lat, lon)
    /\ packet_altitude packet = Ok alt
    /\ mkGpsData 37.42 (-122.08) (Some 30%float) 7000000 =
       mkGpsData
         (round (Builtin_round := round_of_short_decimal) lat
            (GPS_DIGITS_PRECISION default_settings))
         (round (Builtin_round := round_of_short_decimal) lon
            (GPS_DIGITS_PRECISION default_settings))
         (Some alt) (now (fix_at 7 37.42 (-122.08) 30)).
Proof.
  apply (gpsd_fix_comes_from_packet (H := round_of_short_decimal)
           default_settings (fix_at 7 37.42 (-122.08) 30) GpsdGps.init
           (mkGpsData 37.42 (-122.08) (Some 30%float) 7000000)).
  reflexivity.
Defined.

(** X9. [I2CGps._get_data] returns a fix exactly when [update()] returned
    and the module reports a fix; the fix then has the module's latitude
    and longitude rounded to [GPS_DIGITS_PRECISION], its altitude as it is
    (possibly none), and the moment of the call as [acquired_at]. *)
Theorem i2c_fix_iff_has_fix `{Builtin_round} (cfg : Settings) (w : World)
    (self : I2CGps.t) (f : GpsData) :
  outcome (I2CGps._get_data cfg w self) = Ok f <->
  gps_update w = Ok tt
  /\ gps_has_fix w = true
  /\ f = mkGpsData (round (gps_latitude w) (GPS_DIGITS_PRECISION cfg))
                   (round (gps_longitude w) (GPS_DIGITS_PRECISION cfg))
                   (gps_altitude_m w) (now w).
Proof.
  unfold I2CGps._get_data, outcome, bind, call, raise, ret.
  destruct (gps_update w) as [[]|ex]; simpl.
  - destruct (gps_has_fix w); simpl.
    + split.
      * intros Hret. inversion Hret. auto.
      * intros [_ [_ Hf]]. subst f. reflexivity.
    + split; [discriminate|]. intros [_ [Hfix _]]. discriminate.
  - split; [discriminate|]. intros [Hup _]. discriminate.
Qed.

(** ** The body of the loop, path by path *)

#[local] Arguments calibrated : simpl never.

Lemma main_loop_cons {S} `{Gps S} (cfg : Settings) (c : Cycle)
    (rest : list Cycle) (p : Process S) :
  main_loop cfg (c :: rest) p =
  match iteration cfg c p with
  | (Ok _, p1, out1) =>
      match main_loop cfg rest p1 with
      | (r, p2, out2) => (r, p2, out1 ++ out2)
      end
  | (Err ex, p1, out1) => (Err ex, p1, out1)
  end.
Proof. reflexivity. Qed.

(** What [get_data] logs is no sleep, no write to InfluxDB and no JSON
    line. *)
Lemma get_data_events_filtered {S} `{Gps S} (cfg : Settings) (w : World)
    (self : BaseGps S) :
  filter is_sleep (events (get_data cfg w self)) = []
  /\ filter is_influx_write (events (get_data cfg w self)) = []
  /\ filter is_json_line (events (get_data cfg w self)) = [].
Proof.
  destruct (get_data_events_cases cfg w self) as [Hnone|[age Hwarn]].
  - rewrite Hnone. auto.
  - rewrite Hwarn. auto.
Qed.

Lemma existsb_filter_nil {A} (f : A -> bool) (l : list A) :
  filter f l = [] -> existsb f l = false.
Proof.
  induction l as [|a l IH]; simpl; [reflexivity|].
  destruct (f a); [discriminate|]. exact IH.
Qed.

(** Case analysis along the paths of the body of the loop. *)
Ltac walk_iteration cfg c p :=
  rewrite ?main_loop_cons; rewrite iteration_eq; cbv zeta;
  let Hs := fresh "Hsleep" in
  let Hi := fresh "Hinflux" in
  let Hj := fresh "Hjson" in
  destruct (get_data_events_filtered cfg (world c) (gps p)) as [Hs [Hi Hj]];
  unfold events in Hs, Hi, Hj;
  let r := fresh "r" in
  let g := fresh "g" in
  let out := fresh "out" in
  destruct (data_available c) eqn:?;
  [ destruct (get_data cfg (world c) (gps p)) as [[r g] out] eqn:?;
    simpl in Hs, Hi, Hj;
    destruct r as [?f|?ex];
    repeat match goal with
    | |- context [match calibrated c (scd p) with _ => _ end] =>
        destruct (calibrated c (scd p)) as [?sc|?ex] eqn:?
    | |- context [if ENABLE_INFLUXDB (os_environ cfg) then _ else _] =>
        destruct (ENABLE_INFLUXDB (os_environ cfg)) eqn:?
    | |- context [match ghg_point cfg c ?x with _ => _ end] =>
        destruct (ghg_point cfg c x) as [?point|?ex] eqn:?
    | |- context [match write_api_write c with _ => _ end] =>
        destruct (write_api_write c) as [[]|?ex] eqn:?
    | |- context [match mqtt_data c ?x with _ => _ end] =>
        destruct (mqtt_data c x) as [?data|?ex] eqn:?
    end
  | ].

(** X10. While the SCD30 has no data the loop only sleeps: over any number
    of iterations without data it returns, leaves every object as it was
    and produces one sleep of [POLL_INTERVAL_SECONDS] per iteration and
    nothing else. *)
Theorem loop_without_data_only_sleeps {S} `{Gps S} (cfg : Settings)
    (cycles : list Cycle) (p : Process S) :
  forallb (fun c => negb (data_available c)) cycles = true ->
  main_loop cfg cycles p =
  (Ok tt, p, map (fun _ => Sleep (POLL_INTERVAL_SECONDS cfg)) cycles).
Proof.
  induction cycles as [|c rest IH]; intros Hnone; [reflexivity|].
  simpl in Hnone. apply andb_true_iff in Hnone. destruct Hnone as [Hc Hrest].
  rewrite main_loop_cons, iteration_eq.
  apply negb_true_iff in Hc. rewrite Hc. simpl.
  rewrite (IH Hrest). reflexivity.
Qed.

Lemma loop_without_data_only_sleeps_witness :
  main_loop default_settings
    [cycle_at 1 false 1013.25; cycle_at 2 false 1013.25;
     cycle_at 3 false 1013.25; cycle_at 4 false 1013.25;
     cycle_at 5 false 1013.25]
    dummy_process =
  (Ok tt, dummy_process,
   [Sleep 0.5; Sleep 0.5; Sleep 0.5; Sleep 0.5; Sleep 0.5]).
Proof.
  apply (loop_without_data_only_sleeps default_settings
           [cycle_at 1 false 1013.25; cycle_at 2 false 1013.25;
            cycle_at 3 false 1013.25; cycle_at 4 false 1013.25;
            cycle_at 5 false 1013.25]
           dummy_process).
  reflexivity.
Defined.

(** X11. Every iteration sleeps first and sleeps once, whichever way it
    ends: its first event is the sleep of [POLL_INTERVAL_SECONDS] and no
    other event of the iteration is a sleep. *)
Theorem iteration_sleeps_first_and_once {S} `{Gps S} (cfg : Settings)
    (c : Cycle) (p : Process S) :
  exists rest,
    events (iteration cfg c p) = Sleep (POLL_INTERVAL_SECONDS cfg) :: rest
    /\ filter is_sleep rest = [].
Proof.
  walk_iteration cfg c p; unfold events; simpl;
    eexists; (split; [reflexivity|]);
    rewrite ?filter_app, ?Hsleep; reflexivity.
Qed.

(** Lines 280-281 leave the other settings of the SCD30 alone. *)
Lemma calibrated_keeps_settings (c : Cycle) (sc sc' : SCD30) :
  calibrated c sc = Ok sc' ->
  temperature_offset sc' = temperature_offset sc
  /\ scd_altitude sc' = scd_altitude sc
  /\ self_calibration_enabled sc' = self_calibration_enabled sc.
Proof.
  unfold calibrated, and_then.
  destruct (pressure_tested c) as [tested|ex]; [|discriminate].
  destruct (0 <? tested)%float.
  - destruct (pressure_assigned c) as [assigned|ex]; [|discriminate].
    destruct (scd_ambient_pressure_setter c assigned) as [held|ex];
      [|discriminate].
    intros Hsc. inversion Hsc. simpl. auto.
  - intros Hsc. inversion Hsc. auto.
Qed.

Lemma iteration_keeps_calibration {S} `{Gps S} (cfg : Settings) (c : Cycle)
    (p : Process S) :
  let p' := state_after (iteration cfg c p) in
  temperature_offset (scd p') = temperature_offset (scd p)
  /\ scd_altitude (scd p') = scd_altitude (scd p)
  /\ self_calibration_enabled (scd p') = self_calibration_enabled (scd p).
Proof.
  cbv zeta. rewrite scd_after_iteration.
  destruct (data_available c
            && returns (outcome (get_data cfg (world c) (gps p)))); [|auto].
  destruct (calibrated c (scd p)) as [sc|ex] eqn:Hsc; [|auto].
  exact (calibrated_keeps_settings c (scd p) sc Hsc).
Qed.

(** X12. The loop never touches the other SCD30 settings: over any
    iterations, however the run ends, [temperature_offset], [altitude] and
    [self_calibration_enabled] are what they were when the loop started. *)
Theorem loop_keeps_scd_settings {S} `{Gps S} (cfg : Settings)
    (cycles : list Cycle) (p : Process S) :
  let p' := state_after (main_loop cfg cycles p) in
  temperature_offset (scd p') = temperature_offset (scd p)
  /\ scd_altitude (scd p') = scd_altitude (scd p)
  /\ self_calibration_enabled (scd p') = self_calibration_enabled (scd p).
Proof.
  revert p. induction cycles as [|c rest IH]; intros p; [simpl; auto|].
  rewrite main_loop_cons.
  pose proof (iteration_keeps_calibration cfg c p) as Hc.
  simpl in Hc. unfold state_after in *.
  destruct (iteration cfg c p) as [[r p1] out1]; simpl in *.
  destruct r as [[]|ex]; simpl; [|assumption].
  specialize (IH p1). simpl in IH.
  destruct (main_loop cfg rest p1) as [[r2 p2] out2]; simpl in *.
  destruct Hc as [H1 [H2 H3]]. destruct IH as [I1 [I2 I3]].
  rewrite I1, I2, I3. auto.
Qed.

Lemma iteration_no_influx_write_when_disabled {S} `{Gps S} (cfg : Settings)
    (c : Cycle) (p : Process S) :
  ENABLE_INFLUXDB (os_environ cfg) = false ->
  filter is_influx_write (events (iteration cfg c p)) = [].
Proof.
  intros Hoff.
  walk_iteration cfg c p; try congruence; unfold events; simpl;
    rewrite ?filter_app, ?Hinflux; reflexivity.
Qed.

(** X13. With [ENABLE_INFLUXDB] false nothing is ever written to InfluxDB:
    no run of the loop contains a call of [write_api.write]. *)
Theorem no_influx_write_when_disabled {S} `{Gps S} (cfg : Settings)
    (cycles : list Cycle) (p : Process S) :
  ENABLE_INFLUXDB (os_environ cfg) = false ->
  filter is_influx_write (events (main_loop cfg cycles p)) = [].
Proof.
  intros Hoff. revert p.
  induction cycles as [|c rest IH]; intros p; [reflexivity|].
  rewrite main_loop_cons.
  pose proof (iteration_no_influx_write_when_disabled cfg c p Hoff) as Hit.
  unfold events in *.
  destruct (iteration cfg c p) as [[r p1] out1]; simpl in *.
  destruct r as [[]|ex]; simpl; [|assumption].
  specialize (IH p1).
  destruct (main_loop cfg rest p1) as [[r2 p2] out2]; simpl in *.
  rewrite filter_app, Hit, IH. reflexivity.
Qed.

Lemma no_influx_write_when_disabled_witness :
  filter is_influx_write
    (events (main_loop (settings_with [("ENABLE_INFLUXDB", "no")])
               [cycle_at 1 true 1013.25; cycle_at 2 true 0]
               dummy_process)) = [].
Proof.
  apply (no_influx_write_when_disabled
           (settings_with [("ENABLE_INFLUXDB", "no")])
           [cycle_at 1 true 1013.25; cycle_at 2 true 0] dummy_process).
  reflexivity.
Defined.

(** The position in the dict for the local broker is that of the fix. *)
Lemma mqtt_data_position (c : Cycle) (f : GpsData)
    (data : list (string * value)) :
  mqtt_data c f = Ok data ->
  item "Latitude" data = Some (VFloat (latitude f))
  /\ item "Longitude" data = Some (VFloat (longitude f))
  /\ item "Altitude" data = Some (of_optional_float (altitude f)).
Proof.
  unfold mqtt_data, and_then.
  destruct (data_CO2 (data_reads c)); [|discriminate].
  destruct (data_Temperature (data_reads c)); [|discriminate].
  destruct (data_Relative_Humidity (data_reads c)); [|discriminate].
  destruct (data_scd_temp_offset (data_reads c)); [|discriminate].
  destruct (data_baro_temp (data_reads c)); [|discriminate].
  destruct (data_baro_pressure_hpa (data_reads c)); [|discriminate].
  destruct (data_scd30_pressure_mbar (data_reads c)); [|discriminate].
  destruct (data_scd30_alt_m (data_reads c)); [|discriminate].
  intros Hdata. inversion Hdata. repeat split; reflexivity.
Qed.

(** The name, the tag, the time and the position of the point for
    InfluxDB. *)
Lemma ghg_point_content (cfg : Settings) (c : Cycle) (f : GpsData)
    (point : Point) :
  ghg_point cfg c f = Ok point ->
  measurement point = "ghg_point"
  /\ tags point = [("host", of_optional_str (DEVICE_UUID cfg))]
  /\ timestamp point = Some (utcnow c)
  /\ item "lat" (fields point) = Some (VFloat (latitude f))
  /\ item "lon" (fields point) = Some (VFloat (longitude f))
  /\ item "alt" (fields point) = Some (of_optional_float (altitude f)).
Proof.
  unfold ghg_point, and_then.
  destruct (point_co2 (point_reads c)); [|discriminate].
  destruct (point_temperature (point_reads c)); [|discriminate].
  destruct (point_humidity (point_reads c)); [|discriminate].
  destruct (point_baro_pressure (point_reads c)); [|discriminate].
  destruct (point_baro_temperature (point_reads c)); [|discriminate].
  destruct (point_scd30_pressure_mbar (point_reads c)); [|discriminate].
  destruct (point_scd30_altitude_m (point_reads c)); [|discriminate].
  intros Hpoint. inversion Hpoint. repeat split; reflexivity.
Qed.

(** X14. A failing write to InfluxDB ends the loop.  When an iteration
    calls [write_api.write] and the call raises, the exception leaves the
    body: it is the outcome of the iteration, the JSON line of that
    iteration is not produced, and no later iteration runs. *)
Theorem influx_failure_ends_loop {S} `{Gps S} (cfg : Settings) (c : Cycle)
    (rest : list Cycle) (p : Process S) (ex : exn) :
  write_api_write c = Err ex ->
  existsb is_influx_write (events (iteration cfg c p)) = true ->
  outcome (iteration cfg c p) = Err ex
  /\ filter is_json_line (events (iteration cfg c p)) = []
  /\ main_loop cfg (c :: rest) p = iteration cfg c p.
Proof.
  intros Hwrite Hcalled. revert Hcalled.
  walk_iteration cfg c p; unfold events, outcome; simpl;
    rewrite ?existsb_app, ?(existsb_filter_nil _ _ Hinflux); simpl;
    intros Hcalled; try discriminate; try congruence.
  rewrite Hwrite in *.
  match goal with E : Err _ = Err _ |- _ => inversion E; subst end.
  rewrite filter_app, Hjson. auto.
Qed.

Lemma influx_failure_ends_loop_witness :
  outcome (iteration default_settings (cycle_influx_down 9 1013.25)
             dummy_process)
    = Err (Raised "ApiException" (Literal "503 Service Unavailable"))
  /\ filter is_json_line
       (events (iteration default_settings (cycle_influx_down 9 1013.25)
                  dummy_process)) = []
  /\ main_loop default_settings
       [cycle_influx_down 9 1013.25; cycle_at 10 true 1013.25] dummy_process
     = iteration default_settings (cycle_influx_down 9 1013.25)
         dummy_process.
Proof.
  apply (influx_failure_ends_loop default_settings
           (cycle_influx_down 9 1013.25) [cycle_at 10 true 1013.25]
           dummy_process
           (Raised "ApiException" (Literal "503 Service Unavailable"))).
  - reflexivity.
  - vm_compute. reflexivity.
Defined.

(** X15. The JSON line of an iteration.  When the SCD30 has data,
    [get_data] returns the fix [f] and the iteration ends without an
    exception, the iteration has produced exactly one JSON line, and the
    position in it is that of [f]. *)
Theorem json_line_carries_returned_fix {S} `{Gps S} (cfg : Settings)
    (c : Cycle) (p : Process S) (f : GpsData) :
  data_available c = true ->
  outcome (get_data cfg (world c) (gps p)) = Ok f ->
  outcome (iteration cfg c p) = Ok tt ->
  exists data,
    filter is_json_line (events (iteration cfg c p)) =
      [Log INFO (Json data) None]
    /\ item "Latitude" data = Some (VFloat (latitude f))
    /\ item "Longitude" data = Some (VFloat (longitude f))
    /\ item "Altitude" data = Some (of_optional_float (altitude f)).
Proof.
  intros Hda Hfix Hok. revert Hfix Hok.
  walk_iteration cfg c p; unfold events, outcome; simpl;
    intros Hfix Hok; try discriminate; try congruence;
    inversion Hfix; subst;
    match goal with
    | E : mqtt_data c _ = Ok ?d |- _ =>
        exists d; split;
        [rewrite filter_app, Hjson; reflexivity
        |exact (mqtt_data_position c _ d E)]
    end.
Qed.

Lemma json_line_carries_returned_fix_witness :
  exists data,
    filter is_json_line
      (events (iteration default_settings (cycle_at 1 true 1013.25)
                 dummy_process)) =
      [Log INFO (Json data) None]
    /\ item "Latitude" data = Some (VFloat 37.42)
    /\ item "Longitude" data = Some (VFloat (-122.08))
    /\ item "Altitude" data = Some (VFloat 30).
Proof.
  apply (json_line_carries_returned_fix default_settings
           (cycle_at 1 true 1013.25) dummy_process
           (mkGpsData 37.42 (-122.08) (Some 30%float) 1000000)).
  - reflexivity.
  - reflexivity.
  - vm_compute. reflexivity.
Defined.

(** X16. The point written to InfluxDB.  With InfluxDB enabled, an
    iteration that has data and the fix [f] either calls [write_api.write]
    exactly once, with bucket "co2", the organisation of the module and a
    point named "ghg_point" that is tagged with the device UUID, timed at
    [utcnow] and carries the position of [f]; or it calls it not at all,
    and then the iteration ends in an exception. *)
Theorem influx_point_carries_returned_fix {S} `{Gps S} (cfg : Settings)
    (c : Cycle) (p : Process S) (f : GpsData) :
  data_available c = true ->
  outcome (get_data cfg (world c) (gps p)) = Ok f ->
  ENABLE_INFLUXDB (os_environ cfg) = true ->
  (exists point,
     filter is_influx_write (events (iteration cfg c p)) =
       [Influx_write "co2" "keenan.johnson@gmail.com" point]
     /\ measurement point = "ghg_point"
     /\ tags point = [("host", of_optional_str (DEVICE_UUID cfg))]
     /\ timestamp point = Some (utcnow c)
     /\ item "lat" (fields point) = Some (VFloat (latitude f))
     /\ item "lon" (fields point) = Some (VFloat (longitude f))
     /\ item "alt" (fields point) = Some (of_optional_float (altitude f)))
  \/ (filter is_influx_write (events (iteration cfg c p)) = []
      /\ returns (outcome (iteration cfg c p)) = false).
Proof.
  intros Hda Hfix Hon. revert Hfix.
  walk_iteration cfg c p; unfold events, outcome; simpl;
    intros Hfix; try discriminate; try congruence;
    inversion Hfix; subst;
    try (right; split; [rewrite ?filter_app, ?Hinflux|]; reflexivity);
    left;
    match goal with
    | E : ghg_point cfg c _ = Ok ?pt |- _ =>
        exists pt; split;
        [rewrite filter_app, Hinflux; reflexivity
        |exact (ghg_point_content cfg c _ pt E)]
    end.
Qed.

Lemma influx_point_carries_returned_fix_witness :
  (exists point,
     filter is_influx_write
       (events (iteration default_settings (cycle_influx_down 1 1013.25)
                  dummy_process)) =
       [Influx_write "co2" "keenan.johnson@gmail.com" point]
     /\ measurement point = "ghg_point"
     /\ tags point = [("host", of_optional_str (DEVICE_UUID default_settings))]
     /\ timestamp point = Some (utcnow (cycle_influx_down 1 1013.25))
     /\ item "lat" (fields point) = Some (VFloat 37.42)
     /\ item "lon" (fields point) = Some (VFloat (-122.08))
     /\ item "alt" (fields point) = Some (VFloat 30))
  \/ (filter is_influx_write
        (events (iteration default_settings (cycle_influx_down 1 1013.25)
                   dummy_process)) = []
      /\ returns
           (outcome (iteration default_settings (cycle_influx_down 1 1013.25)
                       dummy_process)) = false).
Proof.
  apply (influx_point_carries_returned_fix default_settings
           (cycle_influx_down 1 1013.25) dummy_process
           (mkGpsData 37.42 (-122.08) (Some 30%float) 1000000)).
  - reflexivity.
  - reflexivity.
  - reflexivity.
Defined.

(** X17. A stale fix is published like a fresh one.  In an iteration with
    data whose acquisition fails while the stored fix [F] is younger than
    the maximum age, with InfluxDB disabled, and which ends without an
    exception, the events are the sleep, the fallback warning and one JSON
    line with the position of [F]; no error is logged and [F] stays the
    stored fix. *)
Theorem stale_fix_is_published {S} `{Gps S} (cfg : Settings) (c : Cycle)
    (p : Process S) (F : GpsData) (ex : exn) :
  data_available c = true ->
  _last_fix (gps p) = Some F ->
  outcome (_get_data cfg (world c) (own (gps p))) = Err ex ->
  now (world c) - acquired_at F < GPS_FIX_MAX_AGE cfg ->
  ENABLE_INFLUXDB (os_environ cfg) = false ->
  outcome (iteration cfg c p) = Ok tt ->
  exists data,
    events (iteration cfg c p) =
      [ Sleep (POLL_INTERVAL_SECONDS cfg);
        Log WARNING (Using_last_known_fix (now (world c) - acquired_at F))
            None;
        Log INFO (Json data) None ]
    /\ item "Latitude" data = Some (VFloat (latitude F))
    /\ item "Longitude" data = Some (VFloat (longitude F))
    /\ item "Altitude" data = Some (of_optional_float (altitude F))
    /\ _last_fix (gps (state_after (iteration cfg c p))) = Some F.
Proof.
  intros Hda Hlast Hfail Hage Hoff.
  rewrite iteration_eq, Hda, Hoff. cbv zeta.
  rewrite (get_data_stale cfg (world c) (gps p) ex F Hfail Hlast);
    [|unfold still_fresh; apply Z.ltb_lt; assumption].
  destruct (calibrated c (scd p)) as [sc|ex1]; [|discriminate].
  destruct (mqtt_data c F) as [data|ex1] eqn:Hdata; [|discriminate].
  intros _. exists data.
  destruct (mqtt_data_position c F data Hdata) as [Hlat [Hlon Halt]].
  unfold events, state_after; simpl. auto.
Qed.

Lemma stale_fix_is_published_witness :
  let cfg := settings_with [("ENABLE_INFLUXDB", "0")] in
  let c := cycle_at 300 true 1013.25 in
  let p := mkProcess (i2c_cache (Some fix0)) scd_before_loop in
  exists data,
    events (iteration (H := @I2CGps.gps round_of_short_decimal) cfg c p) =
      [ Sleep (POLL_INTERVAL_SECONDS cfg);
        Log WARNING
          (Using_last_known_fix (now (world c) - acquired_at fix0)) None;
        Log INFO (Json data) None ]
    /\ item "Latitude" data = Some (VFloat (latitude fix0))
    /\ item "Longitude" data = Some (VFloat (longitude fix0))
    /\ item "Altitude" data = Some (of_optional_float (altitude fix0))
    /\ _last_fix
         (gps (state_after
                 (iteration (H := @I2CGps.gps round_of_short_decimal)
                    cfg c p))) = Some fix0.
Proof.
  apply (stale_fix_is_published (H := @I2CGps.gps round_of_short_decimal)
           (settings_with [("ENABLE_INFLUXDB", "0")])
           (cycle_at 300 true 1013.25)
           (mkProcess (i2c_cache (Some fix0)) scd_before_loop) fix0
           (Exception (Literal "No GPS Fix"))).
  - reflexivity.
  - reflexivity.
  - reflexivity.
  - reflexivity.
  - reflexivity.
  - vm_compute. reflexivity.
Defined.

(** [get_data] on the dummy GPS returns and logs nothing. *)
Lemma dummy_get_data_returns (cfg : Settings) (w : World)
    (self : BaseGps DummyGps.t) :
  exists f self', get_data cfg w self = (Ok f, self', []).
Proof.
  rewrite get_data_eq. simpl. eexists. eexists. reflexivity.
Qed.

(** With the dummy GPS and InfluxDB disabled: an iteration logs no error,
    and one that ends without an exception has produced a JSON line if the
    SCD30 had data and none if it had not. *)
Lemma dummy_iteration (cfg : Settings) (c : Cycle) (p : Process DummyGps.t) :
  ENABLE_INFLUXDB (os_environ cfg) = false ->
  filter (fun e => match e with Log ERROR _ _ => true | _ => false end)
    (events (iteration cfg c p)) = []
  /\ (outcome (iteration cfg c p) = Ok tt ->
      length (filter is_json_line (events (iteration cfg c p))) =
      if data_available c then 1%nat else 0%nat).
Proof.
  intros Hoff.
  destruct (dummy_get_data_returns cfg (world c) (gps p))
    as [f0 [g0 Hget]].
  walk_iteration cfg c p; try congruence;
    try (inversion Hget; subst);
    unfold events, outcome; simpl; (split; [reflexivity|]);
    intros Hok; try discriminate; reflexivity.
Qed.

(** X18. With the dummy GPS and InfluxDB disabled, every iteration in which
    the SCD30 has data publishes: over any run of the loop that ends
    without an exception, the number of JSON lines is the number of
    iterations with data, and no error is logged. *)
Theorem dummy_gps_publishes_every_reading (cfg : Settings)
    (cycles : list Cycle) (p : Process DummyGps.t) :
  ENABLE_INFLUXDB (os_environ cfg) = false ->
  outcome (main_loop cfg cycles p) = Ok tt ->
  length (filter is_json_line (events (main_loop cfg cycles p))) =
    length (filter data_available cycles)
  /\ filter (fun e => match e with Log ERROR _ _ => true | _ => false end)
       (events (main_loop cfg cycles p)) = [].
Proof.
  intros Hoff. revert p.
  induction cycles as [|c rest IH]; intros p; [simpl; auto|].
  rewrite main_loop_cons.
  destruct (dummy_iteration cfg c p Hoff) as [Herr Hjson].
  unfold events, outcome in *.
  destruct (iteration cfg c p) as [[r p1] out1]; simpl in *.
  destruct r as [[]|ex]; [|discriminate].
  specialize (IH p1).
  destruct (main_loop cfg rest p1) as [[r2 p2] out2]; simpl in *.
  intros Hok. destruct (IH Hok) as [IHjson IHerr].
  rewrite !filter_app, !length_app, Herr, IHerr, IHjson, (Hjson eq_refl).
  destruct (data_available c); auto.
Qed.

Lemma dummy_gps_publishes_every_reading_witness :
  length (filter is_json_line
            (events (main_loop (settings_with [("ENABLE_INFLUXDB", "no")])
                       [cycle_at 1 true 1013.25; cycle_at 2 false 1013.25;
                        cycle_at 3 true 0]
                       dummy_process))) =
    length (filter data_available
              [cycle_at 1 true 1013.25; cycle_at 2 false 1013.25;
               cycle_at 3 true 0])
  /\ filter (fun e => match e with Log ERROR _ _ => true | _ => false end)
       (events (main_loop (settings_with [("ENABLE_INFLUXDB", "no")])
                  [cycle_at 1 true 1013.25; cycle_at 2 false 1013.25;
                   cycle_at 3 true 0]
                  dummy_process)) = [].
Proof.
  apply (dummy_gps_publishes_every_reading
           (settings_with [("ENABLE_INFLUXDB", "no")])
           [cycle_at 1 true 1013.25; cycle_at 2 false 1013.25;
            cycle_at 3 true 0]
           dummy_process).
  - reflexivity.
  - vm_compute. reflexivity.
Defined.

(** ** The selectors of the I2C bus and of the GPS source *)

Lemma optional_str_eqb_eq (a b : option string) :
  optional_str_eqb a b = true <-> a = b.
Proof.
  destruct a as [x|], b as [y|]; simpl.
  - rewrite String.eqb_eq. split; [intros; subst; reflexivity|].
    intros E. inversion E. reflexivity.
  - split; discriminate.
  - split; discriminate.
  - split; reflexivity.
Qed.

Lemma optional_str_eqb_neq (a b : option string) :
  optional_str_eqb a b = false <-> a <> b.
Proof.
  rewrite <- optional_str_eqb_eq.
  destruct (optional_str_eqb a b); split; try discriminate; auto.
  intros Hne. contradiction Hne. reflexivity.
Qed.

(** X19. Without an [I2C_BUS_ID] override, [get_i2c_bus_id] never raises
    and returns bus 2 on the device type "beaglebone-green-gateway" and
    bus 11 on every other device type, also when the device type is not
    set. *)
Theorem i2c_bus_by_device_type `{Builtin_int} (cfg : Settings) :
  os_environ cfg "I2C_BUS_ID" = None ->
  (RESIN_DEVICE_TYPE cfg = Some "beaglebone-green-gateway" ->
   outcome (get_i2c_bus_id cfg tt) = Ok 2)
  /\ (RESIN_DEVICE_TYPE cfg <> Some "beaglebone-green-gateway" ->
      outcome (get_i2c_bus_id cfg tt) = Ok 11).
Proof.
  intros Hnone.
  assert (Hrun : outcome (get_i2c_bus_id cfg tt) =
                 Ok (if optional_str_eqb (Some "beaglebone-green-gateway")
                          (RESIN_DEVICE_TYPE cfg)
                     then 2 else 11)).
  { unfold get_i2c_bus_id. rewrite Hnone. reflexivity. }
  rewrite Hrun. split; intros Hdev.
  - rewrite Hdev. reflexivity.
  - apply not_eq_sym in Hdev. apply optional_str_eqb_neq in Hdev.
    rewrite Hdev. reflexivity.
Qed.

Lemma i2c_bus_by_device_type_witness :
  (RESIN_DEVICE_TYPE (settings_with [("RESIN_DEVICE_TYPE", "raspberrypi4-64")])
     = Some "beaglebone-green-gateway" ->
   outcome (get_i2c_bus_id (H := int_of_digits)
              (settings_with [("RESIN_DEVICE_TYPE", "raspberrypi4-64")]) tt)
     = Ok 2)
  /\ (RESIN_DEVICE_TYPE
        (settings_with [("RESIN_DEVICE_TYPE", "raspberrypi4-64")])
        <> Some "beaglebone-green-gateway" ->
      outcome (get_i2c_bus_id (H := int_of_digits)
                 (settings_with [("RESIN_DEVICE_TYPE", "raspberrypi4-64")])
                 tt)
        = Ok 11).
Proof.
  apply (i2c_bus_by_device_type (H := int_of_digits)
           (settings_with [("RESIN_DEVICE_TYPE", "raspberrypi4-64")])).
  reflexivity.
Defined.

(** An [I2C_BUS_ID] override wins over the device type: the result of
    [get_i2c_bus_id] is that of [int] on the override, a [ValueError]
    included, and the override is logged; the table is not consulted. *)
Theorem i2c_bus_override_wins `{Builtin_int} (cfg : Settings)
    (override : string) :
  os_environ cfg "I2C_BUS_ID" = Some override ->
  get_i2c_bus_id cfg tt =
  (int_of_str override, tt,
   [Log INFO (Literal ("Using I2C bus override: " ++ override)%string) None]).
Proof.
  intros Hset. unfold get_i2c_bus_id. rewrite Hset.
  unfold logging_info, bind, emit, call; simpl.
  destruct (int_of_str override); reflexivity.
Qed.

Lemma i2c_bus_override_wins_witness :
  get_i2c_bus_id (H := int_of_digits)
    (settings_with [("RESIN_DEVICE_TYPE", "beaglebone-green-gateway");
                    ("I2C_BUS_ID", "1")]) tt =
  (int_of_str (Builtin_int := int_of_digits) "1", tt,
   [Log INFO (Literal "Using I2C bus override: 1") None]).
Proof.
  apply (i2c_bus_override_wins (H := int_of_digits)
           (settings_with [("RESIN_DEVICE_TYPE", "beaglebone-green-gateway");
                           ("I2C_BUS_ID", "1")]) "1").
  reflexivity.
Defined.

(** X20. [GpsSourceType(v)] and the value of a member are inverse: the
    lookup of [v] returns the member [m] exactly when [v] is the value of
    [m]. *)
Theorem gps_source_type_of_value_iff `{Builtin_repr} (v : string)
    (m : GpsSourceType) :
  GpsSourceType_of_value v = Ok m <-> v = GpsSourceType_value m.
Proof.
  unfold GpsSourceType_of_value. split.
  - destruct (String.eqb_spec v "dummy") as [E1|N1];
      [intros Hm; inversion Hm; subst; reflexivity|].
    destruct (String.eqb_spec v "gpsd") as [E2|N2];
      [intros Hm; inversion Hm; subst; reflexivity|].
    destruct (String.eqb_spec v "i2c") as [E3|N3];
      [intros Hm; inversion Hm; subst; reflexivity|].
    discriminate.
  - intros Hv. subst v. destruct m; reflexivity.
Qed.

(** X21. A [GPS_SOURCE] override wins over the device type, and an unknown
    one fails: with the override set to the value of a member,
    [get_gps_source] returns that member; with any other override it
    raises [ValueError]. *)
Theorem gps_source_override `{Builtin_repr} (cfg : Settings)
    (override : string) :
  os_environ cfg "GPS_SOURCE" = Some override ->
  (forall m, override = GpsSourceType_value m ->
             outcome (get_gps_source cfg tt) = Ok m)
  /\ ((forall m, override <> GpsSourceType_value m) ->
      outcome (get_gps_source cfg tt) =
        Err (Raised "ValueError"
               (Literal (repr override ++ " is not a valid GpsSourceType")%string))).
Proof.
  intros Hset. unfold get_gps_source. rewrite Hset.
  unfold logging_info, outcome, bind, emit, call; simpl.
  split.
  - intros m Hm. subst override. destruct m; reflexivity.
  - intros Hnone. unfold GpsSourceType_of_value.
    destruct (String.eqb_spec override "dummy") as [E1|N1];
      [contradiction (Hnone DUMMY E1)|].
    destruct (String.eqb_spec override "gpsd") as [E2|N2];
      [contradiction (Hnone GPSD E2)|].
    destruct (String.eqb_spec override "i2c") as [E3|N3];
      [contradiction (Hnone I2C E3)|].
    reflexivity.
Qed.

Lemma gps_source_override_witness :
  (forall m, "GPS" = GpsSourceType_value m ->
             outcome (get_gps_source (H := repr_of_plain_str)
                        (settings_with
                           [("RESIN_DEVICE_TYPE", "raspberrypicm4-ioboard");
                            ("GPS_SOURCE", "GPS")]) tt) = Ok m)
  /\ ((forall m, "GPS" <> GpsSourceType_value m) ->
      outcome (get_gps_source (H := repr_of_plain_str)
                 (settings_with
                    [("RESIN_DEVICE_TYPE", "raspberrypicm4-ioboard");
                     ("GPS_SOURCE", "GPS")]) tt) =
        Err (Raised "ValueError"
               (Literal (repr (Builtin_repr := repr_of_plain_str) "GPS"
                         ++ " is not a valid GpsSourceType")%string))).
Proof.
  apply (gps_source_override (H := repr_of_plain_str)
           (settings_with [("RESIN_DEVICE_TYPE", "raspberrypicm4-ioboard");
                           ("GPS_SOURCE", "GPS")]) "GPS").
  reflexivity.
Defined.

(** X22. Without a [GPS_SOURCE] override, [get_gps_source] never raises
    and returns [I2C] on the device types "beaglebone-green-gateway" and
    "raspberrypicm4-ioboard" and [GPSD] on every other one, also when the
    device type is not set; it never returns [DUMMY]. *)
Theorem gps_source_by_device_type `{Builtin_repr} (cfg : Settings) :
  os_environ cfg "GPS_SOURCE" = None ->
  outcome (get_gps_source cfg tt) <> Ok DUMMY
  /\ (RESIN_DEVICE_TYPE cfg = Some "beaglebone-green-gateway"
      \/ RESIN_DEVICE_TYPE cfg = Some "raspberrypicm4-ioboard" ->
      outcome (get_gps_source cfg tt) = Ok I2C)
  /\ (RESIN_DEVICE_TYPE cfg <> Some "beaglebone-green-gateway" ->
      RESIN_DEVICE_TYPE cfg <> Some "raspberrypicm4-ioboard" ->
      outcome (get_gps_source cfg tt) = Ok GPSD).
Proof.
  intros Hnone.
  assert (Hrun : outcome (get_gps_source cfg tt) =
                 Ok (if optional_str_eqb (Some "beaglebone-green-gateway")
                          (RESIN_DEVICE_TYPE cfg)
                     then I2C
                     else if optional_str_eqb (Some "raspberrypicm4-ioboard")
                               (RESIN_DEVICE_TYPE cfg)
                          then I2C else GPSD)).
  { unfold get_gps_source. rewrite Hnone. reflexivity. }
  rewrite Hrun. clear Hrun.
  destruct (optional_str_eqb (Some "beaglebone-green-gateway")
              (RESIN_DEVICE_TYPE cfg)) eqn:Eb;
    [|destruct (optional_str_eqb (Some "raspberrypicm4-ioboard")
                 (RESIN_DEVICE_TYPE cfg)) eqn:Er].
  - repeat split; try discriminate; auto.
    intros Hb _. apply optional_str_eqb_eq in Eb. congruence.
  - repeat split; try discriminate; auto.
    intros _ Hr. apply optional_str_eqb_eq in Er. congruence.
  - apply optional_str_eqb_neq in Eb, Er.
    repeat split; try discriminate; auto.
    intros [Hb|Hr]; congruence.
Qed.

Lemma gps_source_by_device_type_witness :
  let cfg := settings_with [("RESIN_DEVICE_TYPE", "raspberrypicm4-ioboard")] in
  outcome (get_gps_source (H := repr_of_plain_str) cfg tt) <> Ok DUMMY
  /\ (RESIN_DEVICE_TYPE cfg = Some "beaglebone-green-gateway"
      \/ RESIN_DEVICE_TYPE cfg = Some "raspberrypicm4-ioboard" ->
      outcome (get_gps_source (H := repr_of_plain_str) cfg tt) = Ok I2C)
  /\ (RESIN_DEVICE_TYPE cfg <> Some "beaglebone-green-gateway" ->
      RESIN_DEVICE_TYPE cfg <> Some "raspberrypicm4-ioboard" ->
      outcome (get_gps_source (H := repr_of_plain_str) cfg tt) = Ok GPSD).
Proof.
  apply (gps_source_by_device_type (H := repr_of_plain_str)
           (settings_with [("RESIN_DEVICE_TYPE", "raspberrypicm4-ioboard")])).
  reflexivity.
Defined.
